(** * go-ghpr: the pull-request lifecycle of [pkg/ghpr/ghpr.go]

    A shallow embedding of the [ghpr] package.  Every Go method of
    [*GithubPR] becomes a function in a small monad that threads the receiver
    object and the outside world, can fail with a Go [error] or panic, and
    writes down every call it makes to a collaborator (go-git, go-billy,
    go-github, [os], [time], [fmt]). *)

From Stdlib Require Import String Ascii List Bool NArith ZArith Lia.
Import ListNotations.
Open Scope string_scope.
Open Scope list_scope.

(* ================================================================= *)
(** ** Go values *)

(** A Go [error] is represented by its message; [nil] is [None] where an
    [error] is a plain value. *)
Definition error := string.

(** [errors.New]. *)
Definition errors_New (msg : string) : error := msg.

(** The result of a call returning [(T, error)] whose value is only read
    when the error is [nil]. *)
Inductive Result (A : Type) : Type :=
| Ok (a : A)
| Err (e : error).
Arguments Ok {A} a.
Arguments Err {A} e.

(** How a Go function returning [error] can end: [return nil] (or a value),
    [return err], or a run-time panic (nil dereference, index out of range). *)
Inductive Outcome (A : Type) : Type :=
| Ret (a : A)
| Fail (e : error)
| Panicked.
Arguments Ret {A} a.
Arguments Fail {A} e.
Arguments Panicked {A}.

(** [time.Duration], in nanoseconds. *)
Definition Duration := N.
Definition Second : Duration := 1000000000%N.
Definition Minute : Duration := (60 * Second)%N.

(** [time.Time] as an instant: nanoseconds since the zero time
    [time.Time{}] (January 1, year 1, 00:00 UTC). *)
Definition Time := Z.
Definition zeroTime : Time := 0%Z.
Definition Time_Equal (t u : Time) : bool := Z.eqb t u.

Definition newline : string := String (ascii_of_nat 10) EmptyString.

(* ================================================================= *)
(** ** [regexp.MatchString] and [strings.Split] *)

(** Regular expressions over bytes.  A Go string is a byte sequence; the
    byte '/' (0x2F) never occurs inside a multi-byte UTF-8 sequence and an
    invalid byte decodes to U+FFFD, so the rune class [[^/]] is "not the
    byte '/'", once per rune, and [[^/]+] is one or more bytes other than
    '/'. *)
Inductive regex : Type :=
| Void
| Eps
| Lit (c : ascii)
| NotLit (c : ascii)
| Cat (r1 r2 : regex)
| Alt (r1 r2 : regex)
| Star (r : regex).

Definition Plus (r : regex) : regex := Cat r (Star r).

Fixpoint nullable (r : regex) : bool :=
  match r with
  | Void => false
  | Eps => true
  | Lit _ => false
  | NotLit _ => false
  | Cat r1 r2 => nullable r1 && nullable r2
  | Alt r1 r2 => nullable r1 || nullable r2
  | Star _ => true
  end.

Definition mkCat (r1 r2 : regex) : regex :=
  match r1, r2 with
  | Void, _ => Void
  | _, Void => Void
  | Eps, _ => r2
  | _, _ => Cat r1 r2
  end.

Definition mkAlt (r1 r2 : regex) : regex :=
  match r1, r2 with
  | Void, _ => r2
  | _, Void => r1
  | _, _ => Alt r1 r2
  end.

(** Brzozowski derivative of [r] by the byte [c]. *)
Fixpoint deriv (c : ascii) (r : regex) : regex :=
  match r with
  | Void => Void
  | Eps => Void
  | Lit d => if Ascii.eqb c d then Eps else Void
  | NotLit d => if Ascii.eqb c d then Void else Eps
  | Cat r1 r2 =>
      if nullable r1
      then mkAlt (mkCat (deriv c r1) r2) (deriv c r2)
      else mkCat (deriv c r1) r2
  | Alt r1 r2 => mkAlt (deriv c r1) (deriv c r2)
  | Star r1 => mkCat (deriv c r1) (Star r1)
  end.

(** Whole-text match. *)
Fixpoint fullMatch (r : regex) (s : string) : bool :=
  match s with
  | EmptyString => nullable r
  | String c s' => fullMatch (deriv c r) s'
  end.

Definition slash : ascii := "/"%char.

(** The pattern ["^[^/]+/[^/]+$"] of [makeGithubPR].  Without the multi-line
    flag [^] and [$] only match at the two ends of the text, so the
    unanchored search of [regexp.MatchString] is a whole-text match of
    [[^/]+/[^/]+]. *)
Definition repoNamePattern : regex :=
  Cat (Plus (NotLit slash)) (Cat (Lit slash) (Plus (NotLit slash))).

(** [regexp.MatchString(pattern, s)]: the error is the pattern's compile
    error, absent for a pattern that compiles. *)
Definition regexp_MatchString (pattern : regex) (s : string)
  : bool * option error :=
  (fullMatch pattern s, None).

(** [strings.Split(s, sep)] for a separator of one byte. *)
Fixpoint strings_Split (s : string) (sep : ascii) : list string :=
  match s with
  | EmptyString => [EmptyString]
  | String c s' =>
      if Ascii.eqb c sep then EmptyString :: strings_Split s' sep
      else match strings_Split s' sep with
           | h :: t => String c h :: t
           | [] => [String c EmptyString]
           end
  end.

(** No byte of [s] is '/'. *)
Fixpoint noSlash (s : string) : bool :=
  match s with
  | EmptyString => true
  | String c s' => negb (Ascii.eqb c slash) && noSlash s'
  end.

(* ================================================================= *)
(** ** Data model *)

(** [Credentials]: a GitHub username and personal access token. *)
Record Credentials : Type := { Username : string; Token : string }.

(** [http.BasicAuth] of go-git. *)
Record BasicAuth : Type := { auth_Username : string; auth_Password : string }.

(** [object.Signature]: the author of a commit.  [UpdateFunc] returns a
    pointer to one. *)
Record Signature : Type :=
  { sig_Name : string; sig_Email : string; sig_When : Time }.

Definition setWhen (a : Signature) (t : Time) : Signature :=
  {| sig_Name := sig_Name a; sig_Email := sig_Email a; sig_When := t |}.

(** Handles on objects the world owns. *)
Definition Filesystem := string.   (* a [billy.Filesystem], by its root *)
Definition Repository := nat.      (* a [*git.Repository] *)
Definition Worktree := nat.        (* a [*git.Worktree] *)
Definition Hash := string.         (* a [plumbing.Hash] *)

(** [*github.Client], built from the token by [oauth2]. *)
Record Client : Type := { AccessToken : string }.

(** [git.CloneOptions] as [Clone] fills it. *)
Record CloneOptions : Type :=
  { clone_Depth : Z; clone_URL : string; clone_Auth : BasicAuth }.

(** go-github records; every field is a pointer there, so [option] here. *)
Record NewPullRequest : Type :=
  { newpr_Title : string; newpr_Head : string;
    newpr_Base : string; newpr_Body : string }.
Record PullRequestBranch : Type := { branch_SHA : option string }.
Record PullRequest : Type :=
  { pr_Number : option Z;
    pr_Head : option PullRequestBranch;
    pr_Mergeable : option bool }.
Record PullRequestMergeResult : Type := { merge_SHA : option string }.
Record RepoStatus : Type :=
  { status_Context : option string; status_State : option string }.

(** [RepoStatus.GetContext] and [GetState]: the empty string for [nil]. *)
Definition GetContext (s : RepoStatus) : string :=
  match status_Context s with Some c => c | None => "" end.
Definition GetState (s : RepoStatus) : string :=
  match status_State s with Some c => c | None => "" end.

(** [GithubPR]: the receiver of every method.  The two injected
    collaborators ([git] and the transport behind [gitHubClient]) are the
    [Backend] below. *)
Record GithubPR : Type :=
  { auth : BasicAuth;
    filesystem : Filesystem;
    gitHubClient : Client;
    mergeSHA : string;
    path : string;
    pr : Z;
    gitRepo : option Repository;
    owner : string;
    repo : string }.

Definition set_gitRepo (g : GithubPR) (r : option Repository) : GithubPR :=
  {| auth := auth g; filesystem := filesystem g;
     gitHubClient := gitHubClient g; mergeSHA := mergeSHA g;
     path := path g; pr := pr g; gitRepo := r;
     owner := owner g; repo := repo g |}.

Definition set_pr (g : GithubPR) (n : Z) : GithubPR :=
  {| auth := auth g; filesystem := filesystem g;
     gitHubClient := gitHubClient g; mergeSHA := mergeSHA g;
     path := path g; pr := n; gitRepo := gitRepo g;
     owner := owner g; repo := repo g |}.

Definition set_mergeSHA (g : GithubPR) (sha : string) : GithubPR :=
  {| auth := auth g; filesystem := filesystem g;
     gitHubClient := gitHubClient g; mergeSHA := sha;
     path := path g; pr := pr g; gitRepo := gitRepo g;
     owner := owner g; repo := repo g |}.

(** What [UpdateFunc] hands back: [(string, *object.Signature, error)]. *)
Definition UpdateResult : Type := (string * option Signature * option error)%type.

(** One call to a collaborator, with its arguments and what it returned. *)
Inductive Call : Type :=
| CTempDir (fs : Filesystem) (dir prefix : string) (r : Result string)
| CChroot (fs : Filesystem) (p : string) (r : Result Filesystem)
| CClone (storage worktree : Filesystem) (o : CloneOptions)
         (r : option Repository * option error)
| CHead (g : Repository) (r : Result Hash)
| CSetReference (g : Repository) (name : string) (h : Hash) (r : option error)
| CWorktree (g : Repository) (r : Result Worktree)
| CCheckout (w : Worktree) (branch : string) (r : option error)
| CUpdateFunc (w : Worktree) (r : UpdateResult)
| CNow (t : Time)
| CCommit (w : Worktree) (msg : string) (author : Signature) (r : Result Hash)
| CPush (g : Repository) (a : BasicAuth) (r : option error)
| CPRCreate (c : Client) (owner repo : string) (new : NewPullRequest)
            (r : Result PullRequest)
| CPRGet (c : Client) (owner repo : string) (number : Z) (r : Result PullRequest)
| CPRMerge (c : Client) (owner repo : string) (number : Z)
           (commitMessage mergeMethod : string)
           (r : Result PullRequestMergeResult)
| CListStatuses (c : Client) (owner repo ref : string) (perPage : Z)
                (issued : Duration)
                (r : Result (option (list RepoStatus)) * Duration)
| CRemoveAll (p : string) (r : option error)
| CPrint (text : string).

(** The collaborators, as functions of the world [W] they act on.
    [repos_ListStatuses] also tells how long the request took;
    [select_tie] is the choice [select] makes when the result channel and
    the deadline timer are ready at the same instant ([true]: the channel);
    [fmt_Sprintf0] is [fmt.Sprintf] applied to a format and no operand. *)
Record Backend (W : Type) : Type :=
  { util_TempDir : Filesystem -> string -> string -> W -> Result string * W;
    fs_Chroot : Filesystem -> string -> W -> Result Filesystem * W;
    git_Clone : Filesystem -> Filesystem -> CloneOptions -> W ->
                (option Repository * option error) * W;
    repo_Head : Repository -> W -> Result Hash * W;
    storer_SetReference : Repository -> string -> Hash -> W -> option error * W;
    repo_Worktree : Repository -> W -> Result Worktree * W;
    wt_Checkout : Worktree -> string -> W -> option error * W;
    wt_Commit : Worktree -> string -> Signature -> W -> Result Hash * W;
    repo_Push : Repository -> BasicAuth -> W -> option error * W;
    time_Now : W -> Time * W;
    fmt_Sprintf0 : string -> string;
    pulls_Create : Client -> string -> string -> NewPullRequest -> W ->
                   Result PullRequest * W;
    pulls_Get : Client -> string -> string -> Z -> W -> Result PullRequest * W;
    pulls_Merge : Client -> string -> string -> Z -> string -> string -> W ->
                  Result PullRequestMergeResult * W;
    repos_ListStatuses : Client -> string -> string -> string -> Z -> W ->
                         (Result (option (list RepoStatus)) * Duration) * W;
    os_RemoveAll : string -> W -> option error * W;
    select_tie : bool }.
Arguments util_TempDir {W} _. Arguments fs_Chroot {W} _.
Arguments git_Clone {W} _. Arguments repo_Head {W} _.
Arguments storer_SetReference {W} _. Arguments repo_Worktree {W} _.
Arguments wt_Checkout {W} _. Arguments wt_Commit {W} _.
Arguments repo_Push {W} _. Arguments time_Now {W} _.
Arguments fmt_Sprintf0 {W} _. Arguments pulls_Create {W} _.
Arguments pulls_Get {W} _. Arguments pulls_Merge {W} _.
Arguments repos_ListStatuses {W} _. Arguments os_RemoveAll {W} _.
Arguments select_tie {W} _.

(** [UpdateFunc]: the caller's callback, run against the live worktree. *)
Definition UpdateFunc (W : Type) : Type := Worktree -> W -> UpdateResult * W.

(* ================================================================= *)
(** ** The monad of Go code *)

(** A computation over a state [S] that returns, fails or panics and logs
    entries of type [L]. *)
Definition M (S L A : Type) : Type := S -> Outcome A * S * list L.

Definition ret {S L A} (a : A) : M S L A := fun s => (Ret a, s, []).
Definition fail {S L A} (e : error) : M S L A := fun s => (Fail e, s, []).
Definition panic {S L A} : M S L A := fun s => (Panicked, s, []).

Definition bind {S L A B} (m : M S L A) (k : A -> M S L B) : M S L B :=
  fun s =>
    match m s with
    | (Ret a, s1, l1) => let '(r, s2, l2) := k a s1 in (r, s2, l1 ++ l2)
    | (Fail e, s1, l1) => (Fail e, s1, l1)
    | (Panicked, s1, l1) => (Panicked, s1, l1)
    end.

Declare Scope go_scope.
Delimit Scope go_scope with go.
Notation "x <- c1 ;; c2" := (bind c1 (fun x => c2))
  (at level 100, c1 at next level, right associativity) : go_scope.
Notation "c1 ;; c2" := (bind c1 (fun _ => c2))
  (at level 100, right associativity) : go_scope.

(** [v, err := f(...); if err != nil { return err }]. *)
Definition check {S L A} (m : M S L (Result A)) : M S L A :=
  bind m (fun r => match r with Ok a => ret a | Err e => fail e end).

(** [err := f(...); if err != nil { return err }]. *)
Definition checkErr {S L} (m : M S L (option error)) : M S L unit :=
  bind m (fun r => match r with None => ret tt | Some e => fail e end).

(** [*p]: a nil pointer dereference panics. *)
Definition deref {S L A} (p : option A) : M S L A :=
  match p with Some a => ret a | None => panic end.

(** [err := f(...)] with the error kept as a value. *)
Definition attempt {S L} (m : M S L unit) : M S L (option error) :=
  fun s =>
    match m s with
    | (Ret _, s1, l1) => (Ret None, s1, l1)
    | (Fail e, s1, l1) => (Ret (Some e), s1, l1)
    | (Panicked, s1, l1) => (Panicked, s1, l1)
    end.

(** [defer d()] followed by [body]: [d] runs when [body] returns or panics,
    what it returns is dropped. *)
Definition defer {S L A B} (d : M S L B) (body : M S L A) : M S L A :=
  fun s =>
    let '(r, s1, l1) := body s in
    let '(rd, s2, l2) := d s1 in
    (match rd with Panicked => Panicked | _ => r end, s2, l1 ++ l2).

(* ================================================================= *)
(** ** The package *)

(** The state a method runs in: the receiver and the world. *)
Record St (W : Type) : Type := { obj : GithubPR; world : W }.
Arguments obj {W} _.
Arguments world {W} _.
Arguments Build_St {W} _ _.

(** The exported methods, as [Create] sequences them. *)
Inductive Method : Type :=
| MClone | MPushCommit | MRaisePR | MWaitForPR | MMergePR
| MWaitForMergeCommit | MClose.

(** One method invocation inside [Create]: the calls it made and how it
    ended. *)
Record MethodCall : Type :=
  { method : Method; calls : list Call; result : Outcome unit }.

(** The poll interval and the deadline of [waitForStatus]. *)
Definition pollInterval : Duration := (2 * Second)%N.
Definition waitDeadline : Duration := (60 * Minute)%N.

(** Polls that can start before the deadline: each one sleeps
    [pollInterval] first. *)
Definition pollFuel : nat := S (N.to_nat (waitDeadline / pollInterval)).

Definition statusFailedError : error :=
  errors_New "target status check is in a failed state, aborting".
Definition statusTimeoutError : error :=
  errors_New "timed out waiting for PR to become mergeable".
Definition notMergeableError : error := errors_New "PR is not mergeable".
Definition invalidRepoNameError : error :=
  errors_New "invalid repository name supplied".

(** The [for i := 0; i < len(statuses); i++] loop of [waitForStatus]:
    [Some r] when the goroutine sends [r] on the channel and returns,
    [None] when the loop runs to its end. *)
Fixpoint scanStatuses (statusContext : string) (statuses : list RepoStatus)
  : option (Outcome unit) :=
  match statuses with
  | [] => None
  | st :: rest =>
      let context := GetContext st in
      let state := GetState st in
      if String.eqb context statusContext then
        if String.eqb state "success" then Some (Ret tt)
        else if String.eqb state "failure" || String.eqb state "error"
             then Some (Fail statusFailedError)
             else scanStatuses statusContext rest
      else scanStatuses statusContext rest
  end.

(** [if statuses != nil { for ... }]. *)
Definition scanPage (statusContext : string)
           (statuses : option (list RepoStatus)) : option (Outcome unit) :=
  match statuses with
  | None => None
  | Some l => scanStatuses statusContext l
  end.

(** The [select] of [waitForStatus] when the goroutine sends [r] at time
    [t] after the start: the channel wins before the deadline, the timer
    after it. *)
Definition selectResult (tie : bool) (t : Duration) (r : Outcome unit)
  : Outcome unit :=
  if (t <? waitDeadline)%N then r
  else if (t =? waitDeadline)%N then
         (if tie then r else Fail statusTimeoutError)
       else Fail statusTimeoutError.

Section Package.
Variable W : Type.
Variable B : Backend W.

Local Open Scope go_scope.

(** A logged call to a collaborator, from a method and from a function
    without receiver. *)
Definition call {R} (op : W -> R * W) (mk : R -> Call) : M (St W) Call R :=
  fun s =>
    let '(r, w) := op (world s) in
    (Ret r, Build_St (obj s) w, [mk r]).

Definition callW {R} (op : W -> R * W) (mk : R -> Call) : M W Call R :=
  fun w => let '(r, w') := op w in (Ret r, w', [mk r]).

Definition print (text : string) : M (St W) Call unit :=
  fun s => (Ret tt, s, [CPrint text]).

Definition this : M (St W) Call GithubPR := fun s => (Ret (obj s), s, []).

Definition assign (g : GithubPR) : M (St W) Call unit :=
  fun s => (Ret tt, Build_St g (world s), []).

(** [makeGithubPR]; the [gogit] argument is [git_Clone B]. *)
Definition makeGithubPR (repoName : string) (creds : Credentials)
           (fs : Filesystem) : M W Call GithubPR :=
  let '(matched, err) := regexp_MatchString repoNamePattern repoName in
  match err with
  | Some e => fail e
  | None =>
      if negb matched then fail invalidRepoNameError
      else
        owner <- deref (nth_error (strings_Split repoName slash) 0) ;;
        repo <- deref (nth_error (strings_Split repoName slash) 1) ;;
        tempDir <- check (callW (util_TempDir B fs "." "repo_")
                                (CTempDir fs "." "repo_")) ;;
        fs' <- check (callW (fs_Chroot B fs tempDir) (CChroot fs tempDir)) ;;
        ret {| auth := {| auth_Username := Username creds;
                          auth_Password := Token creds |};
               filesystem := fs';
               gitHubClient := {| AccessToken := Token creds |};
               mergeSHA := "";
               path := tempDir;
               pr := 0%Z;
               gitRepo := None;
               owner := owner;
               repo := repo |}
  end.

(** [Clone]. *)
Definition Clone : M (St W) Call unit :=
  ghpr <- this ;;
  let url := fmt_Sprintf0 B ("https://github.com/" ++ owner ghpr ++ "/"
                             ++ repo ghpr)%string in
  storageWorkTree <- check (call (fs_Chroot B (filesystem ghpr) ".git")
                                 (CChroot (filesystem ghpr) ".git")) ;;
  let o := {| clone_Depth := 1%Z; clone_URL := url;
              clone_Auth := auth ghpr |} in
  res <- call (git_Clone B storageWorkTree (filesystem ghpr) o)
              (CClone storageWorkTree (filesystem ghpr) o) ;;
  let '(r, err) := res in
  assign (set_gitRepo ghpr r) ;;
  match err with
  | Some e => fail e
  | None => ret tt
  end.

(** [PushCommit].  The value [w.Checkout] returns is not read. *)
Definition PushCommit (branchName : string) (fn : UpdateFunc W)
  : M (St W) Call unit :=
  ghpr <- this ;;
  g <- deref (gitRepo ghpr) ;;
  headRef <- check (call (repo_Head B g) (CHead g)) ;;
  let branchRef := ("refs/heads/" ++ branchName)%string in
  checkErr (call (storer_SetReference B g branchRef headRef)
                 (CSetReference g branchRef headRef)) ;;
  w <- check (call (repo_Worktree B g) (CWorktree g)) ;;
  let branch := ("refs/heads/" ++ branchName)%string in
  call (wt_Checkout B w branch) (CCheckout w branch) ;;
  res <- call (fn w) (CUpdateFunc w) ;;
  let '(commitMessage, author, err) := res in
  match err with
  | Some e => fail e
  | None =>
      a <- deref author ;;
      a' <- (if Time_Equal (sig_When a) zeroTime
             then now <- call (time_Now B) CNow ;; ret (setWhen a now)
             else ret a) ;;
      check (call (wt_Commit B w commitMessage a')
                  (CCommit w commitMessage a')) ;;
      let branchRef := ("refs/remotes/origin/" ++ branchName)%string in
      checkErr (call (storer_SetReference B g branchRef headRef)
                     (CSetReference g branchRef headRef)) ;;
      checkErr (call (repo_Push B g (auth ghpr)) (CPush g (auth ghpr)))
  end.

(** [RaisePR]. *)
Definition RaisePR (sourceBranch targetBranch title body : string)
  : M (St W) Call unit :=
  ghpr <- this ;;
  let new := {| newpr_Title := title; newpr_Head := sourceBranch;
                newpr_Base := targetBranch; newpr_Body := body |} in
  pr <- check (call (pulls_Create B (gitHubClient ghpr) (owner ghpr)
                                  (repo ghpr) new)
                    (CPRCreate (gitHubClient ghpr) (owner ghpr)
                               (repo ghpr) new)) ;;
  n <- deref (pr_Number pr) ;;
  assign (set_pr ghpr n).

(** The goroutine of [waitForStatus] raced against the deadline timer.
    [elapsed] is the time since the call started.  A request is issued
    only while the timer has not fired; once it has, the caller has
    returned and the abandoned goroutine is followed no further. *)
Fixpoint pollLoop (fuel : nat) (c : Client)
         (shaRef owner repo statusContext : string)
         (elapsed : Duration) (w : W) : Outcome unit * W * list Call :=
  match fuel with
  | O => (Fail statusTimeoutError, w, [])
  | S fuel' =>
      let issued := (elapsed + pollInterval)%N in
      if (waitDeadline <=? issued)%N then (Fail statusTimeoutError, w, [])
      else
        let '(resp, w') := repos_ListStatuses B c owner repo shaRef 20%Z w in
        let ev := CListStatuses c owner repo shaRef 20%Z issued resp in
        let arrived := (issued + snd resp)%N in
        match fst resp with
        | Err err => (selectResult (select_tie B) arrived (Fail err), w', [ev])
        | Ok statuses =>
            match scanPage statusContext statuses with
            | Some r => (selectResult (select_tie B) arrived r, w', [ev])
            | None =>
                let '(r, w'', l) :=
                  pollLoop fuel' c shaRef owner repo statusContext arrived w'
                in (r, w'', ev :: l)
            end
        end
  end.

(** [waitForStatus]. *)
Definition waitForStatus (shaRef owner repo statusContext : string)
  : M (St W) Call unit :=
  ghpr <- this ;;
  print ("Waiting for " ++ shaRef ++ " to become mergeable" ++ newline)%string ;;
  fun s =>
    let '(r, w, l) :=
      pollLoop pollFuel (gitHubClient ghpr) shaRef owner repo statusContext
               0%N (world s)
    in (r, Build_St (obj s) w, l).

(** [WaitForPR]. *)
Definition WaitForPR (statusContext : string) : M (St W) Call unit :=
  ghpr <- this ;;
  pr <- check (call (pulls_Get B (gitHubClient ghpr) (owner ghpr) (repo ghpr)
                               (pr ghpr))
                    (CPRGet (gitHubClient ghpr) (owner ghpr) (repo ghpr)
                            (pr ghpr))) ;;
  head <- deref (pr_Head pr) ;;
  sha <- deref (branch_SHA head) ;;
  print ("HEAD sha is " ++ sha ++ newline)%string ;;
  waitForStatus sha (owner ghpr) (repo ghpr) statusContext.

(** [MergePR]. *)
Definition MergePR : M (St W) Call unit :=
  ghpr <- this ;;
  pr <- check (call (pulls_Get B (gitHubClient ghpr) (owner ghpr) (repo ghpr)
                               (pr ghpr))
                    (CPRGet (gitHubClient ghpr) (owner ghpr) (repo ghpr)
                            (pr ghpr))) ;;
  if match pr_Mergeable pr with Some b => b | None => false end then
    n <- deref (pr_Number pr) ;;
    merge <- check (call (pulls_Merge B (gitHubClient ghpr) (owner ghpr)
                                      (repo ghpr) n "" "merge")
                         (CPRMerge (gitHubClient ghpr) (owner ghpr)
                                   (repo ghpr) n "" "merge")) ;;
    sha <- deref (merge_SHA merge) ;;
    assign (set_mergeSHA ghpr sha)
  else fail notMergeableError.

(** [WaitForMergeCommit]. *)
Definition WaitForMergeCommit (statusContext : string) : M (St W) Call unit :=
  ghpr <- this ;;
  waitForStatus (mergeSHA ghpr) (owner ghpr) (repo ghpr) statusContext.

(** [Close]. *)
Definition Close : M (St W) Call unit :=
  ghpr <- this ;;
  checkErr (call (os_RemoveAll B (path ghpr)) (CRemoveAll (path ghpr))).

(** A method invoked from [Create], recorded as one [MethodCall]. *)
Definition invoke (m : Method) (body : M (St W) Call unit)
  : M (St W) MethodCall unit :=
  fun s =>
    let '(r, s', l) := body s in
    (r, s', [{| method := m; calls := l; result := r |}]).

(** [Create].  [err = f(); if err != nil { return err }] is the bind of
    the monad. *)
Definition Create (branchName targetBranch prStatusContext
                   masterStatusContext : string) (fn : UpdateFunc W)
  : M (St W) MethodCall unit :=
  err <- attempt (invoke MClone Clone) ;;
  defer (invoke MClose Close)
    (match err with Some e => fail e | None => ret tt end ;;
     invoke MPushCommit (PushCommit branchName fn) ;;
     let stuff := "test" in
     invoke MRaisePR (RaisePR branchName targetBranch stuff "") ;;
     invoke MWaitForPR (WaitForPR prStatusContext) ;;
     invoke MMergePR MergePR ;;
     invoke MWaitForMergeCommit (WaitForMergeCommit masterStatusContext)).

End Package.

(* ================================================================= *)
(** ** Vocabulary of the properties *)

(** The states that end the wait. *)
Definition isTerminal (state : string) : bool :=
  String.eqb state "success" || String.eqb state "failure"
  || String.eqb state "error".

(** An entry carries the requested check name. *)
Definition matchesContext (statusContext : string) (st : RepoStatus) : bool :=
  String.eqb (GetContext st) statusContext.

(** An entry that carries the requested check name in a terminal state. *)
Definition decides (statusContext : string) (st : RepoStatus) : bool :=
  matchesContext statusContext st && isTerminal (GetState st).

(** What the wait answers on a deciding entry. *)
Definition verdictOf (st : RepoStatus) : Outcome unit :=
  if String.eqb (GetState st) "success" then Ret tt
  else Fail statusFailedError.

(** A status request whose answer ends the wait (a transport error or a
    page with a deciding entry) and reached the caller by the deadline. *)
Definition resolvedInTime (statusContext : string) (ev : Call) : bool :=
  match ev with
  | CListStatuses _ _ _ _ _ issued (resp, took) =>
      (issued + took <=? waitDeadline)%N
      && match resp with
         | Err _ => true
         | Ok statuses =>
             match scanPage statusContext statuses with
             | Some _ => true
             | None => false
             end
         end
  | _ => false
  end.

(** The merge commit a log of calls leaves behind: the SHA of its last
    successful merge request, [sha0] when it has none. *)
Fixpoint lastMerged (l : list Call) (sha0 : string) : string :=
  match l with
  | [] => sha0
  | CPRMerge _ _ _ _ _ _ (Ok {| merge_SHA := Some sha |}) :: l' =>
      lastMerged l' sha
  | _ :: l' => lastMerged l' sha0
  end.

Definition isMerged (ev : Call) : bool :=
  match ev with
  | CPRMerge _ _ _ _ _ _ (Ok {| merge_SHA := Some _ |}) => true
  | _ => false
  end.

Definition isMergeCall (ev : Call) : bool :=
  match ev with CPRMerge _ _ _ _ _ _ _ => true | _ => false end.
Definition isCommit (ev : Call) : bool :=
  match ev with CCommit _ _ _ _ => true | _ => false end.
Definition isPush (ev : Call) : bool :=
  match ev with CPush _ _ _ => true | _ => false end.

(** A pull request is only ever opened with the title ["test"] and an empty
    body. *)
Definition titledTest (ev : Call) : bool :=
  match ev with
  | CPRCreate _ _ _ new _ =>
      String.eqb (newpr_Title new) "test" && String.eqb (newpr_Body new) ""
  | _ => true
  end.

(** A call that neither opens nor merges a pull request. *)
Definition quiet (ev : Call) : bool :=
  match ev with
  | CPRCreate _ _ _ _ _ => false
  | CPRMerge _ _ _ _ _ _ _ => false
  | _ => true
  end.

(** What a run that ended in state [s'] with calls [l] kept of the state
    [s] it started in: the temporary directory and the merge commit, with
    no pull request opened or merged. *)
Definition keeps {W} (s s' : St W) (l : list Call) : Prop :=
  path (obj s') = path (obj s)
  /\ mergeSHA (obj s') = mergeSHA (obj s)
  /\ forallb quiet l = true.

(** The steps of [Create], in the order of the source. *)
Definition createOrder : list Method :=
  [MClone; MPushCommit; MRaisePR; MWaitForPR; MMergePR; MWaitForMergeCommit].

(** The operations a caller can apply to a [GithubPR]: the component
    methods, and [Create], which sequences them. *)
Inductive Op (W : Type) : Type :=
| OClone
| OPushCommit (branchName : string) (fn : UpdateFunc W)
| ORaisePR (sourceBranch targetBranch title body : string)
| OWaitForPR (statusContext : string)
| OMergePR
| OWaitForMergeCommit (statusContext : string)
| OClose
| OCreate (branchName targetBranch prStatusContext masterStatusContext : string)
          (fn : UpdateFunc W).
Arguments OClone {W}.
Arguments OPushCommit {W} _ _.
Arguments ORaisePR {W} _ _ _ _.
Arguments OWaitForPR {W} _.
Arguments OMergePR {W}.
Arguments OWaitForMergeCommit {W} _.
Arguments OClose {W}.
Arguments OCreate {W} _ _ _ _ _.


(** All the calls of a run of [Create], in order. *)
Definition flatten (l : list MethodCall) : list Call := concat (map calls l).

Definition runOp {W} (B : Backend W) (op : Op W) (s : St W)
  : Outcome unit * St W * list Call :=
  match op with
  | OClone => Clone W B s
  | OPushCommit branchName fn => PushCommit W B branchName fn s
  | ORaisePR sourceBranch targetBranch title body =>
      RaisePR W B sourceBranch targetBranch title body s
  | OWaitForPR statusContext => WaitForPR W B statusContext s
  | OMergePR => MergePR W B s
  | OWaitForMergeCommit statusContext => WaitForMergeCommit W B statusContext s
  | OClose => Close W B s
  | OCreate branchName targetBranch prStatusContext masterStatusContext fn =>
      let '(r, s', l) :=
        Create W B branchName targetBranch prStatusContext masterStatusContext
               fn s in
      (r, s', flatten l)
  end.

(** A caller applying operations one after the other, whatever each
    returns; a panic ends the program. *)
Fixpoint runOps {W} (B : Backend W) (ops : list (Op W)) (s : St W)
  : St W * list Call :=
  match ops with
  | [] => (s, [])
  | op :: ops' =>
      let '(r, s1, l1) := runOp B op s in
      match r with
      | Panicked => (s1, l1)
      | _ => let '(s2, l2) := runOps B ops' s1 in (s2, l1 ++ l2)
      end
  end.

(* ================================================================= *)
(** ** Scripted collaborators, for running the package on concrete inputs *)

(** Fixed answers for every collaborator; the world counts the status
    requests served, and request number [k] is answered by entry [k] of
    [sc_polls] ([sc_pollDefault] past its end). *)
Record Script : Type :=
  { sc_tempDir : Result string;
    sc_chroot : Result Filesystem;
    sc_clone : option Repository * option error;
    sc_head : Result Hash;
    sc_setReference : option error;
    sc_worktree : Result Worktree;
    sc_checkout : option error;
    sc_commit : Result Hash;
    sc_push : option error;
    sc_now : Time;
    sc_create : Result PullRequest;
    sc_get : Result PullRequest;
    sc_merge : Result PullRequestMergeResult;
    sc_polls : list (Result (option (list RepoStatus)) * Duration);
    sc_pollDefault : Result (option (list RepoStatus)) * Duration;
    sc_removeAll : option error;
    sc_tie : bool }.

Definition scripted (sc : Script) : Backend nat :=
  {| util_TempDir := fun _ _ _ w => (sc_tempDir sc, w);
     fs_Chroot := fun _ _ w => (sc_chroot sc, w);
     git_Clone := fun _ _ _ w => (sc_clone sc, w);
     repo_Head := fun _ w => (sc_head sc, w);
     storer_SetReference := fun _ _ _ w => (sc_setReference sc, w);
     repo_Worktree := fun _ w => (sc_worktree sc, w);
     wt_Checkout := fun _ _ w => (sc_checkout sc, w);
     wt_Commit := fun _ _ _ w => (sc_commit sc, w);
     repo_Push := fun _ _ w => (sc_push sc, w);
     time_Now := fun w => (sc_now sc, w);
     fmt_Sprintf0 := fun s => s;
     pulls_Create := fun _ _ _ _ w => (sc_create sc, w);
     pulls_Get := fun _ _ _ _ w => (sc_get sc, w);
     pulls_Merge := fun _ _ _ _ _ _ w => (sc_merge sc, w);
     repos_ListStatuses :=
       fun _ _ _ _ _ w => (nth w (sc_polls sc) (sc_pollDefault sc), S w);
     os_RemoveAll := fun _ w => (sc_removeAll sc, w);
     select_tie := sc_tie sc |}.

Definition status (context state : string) : RepoStatus :=
  {| status_Context := Some context; status_State := Some state |}.

Definition page (l : list RepoStatus) (took : Duration)
  : Result (option (list RepoStatus)) * Duration :=
  (Ok (Some l), took).

Definition openPR : PullRequest :=
  {| pr_Number := Some 7%Z;
     pr_Head := Some {| branch_SHA := Some "headsha" |};
     pr_Mergeable := Some true |}.

(** A script that differs from the all-green one in the fields given. *)
Definition scriptWith (tempDir : Result string) (checkout : option error)
           (get : Result PullRequest)
           (merge : Result PullRequestMergeResult)
           (polls : list (Result (option (list RepoStatus)) * Duration))
           (pollDefault : Result (option (list RepoStatus)) * Duration)
  : Script :=
  {| sc_tempDir := tempDir;
     sc_chroot := Ok "repo_123";
     sc_clone := (Some 1, None);
     sc_head := Ok "basesha";
     sc_setReference := None;
     sc_worktree := Ok 1;
     sc_checkout := checkout;
     sc_commit := Ok "newsha";
     sc_push := None;
     sc_now := 63000000000000000000%Z;
     sc_create := Ok openPR;
     sc_get := get;
     sc_merge := merge;
     sc_polls := polls;
     sc_pollDefault := pollDefault;
     sc_removeAll := None;
     sc_tie := true |}.

Definition merged : Result PullRequestMergeResult :=
  Ok {| merge_SHA := Some "mergesha" |}.

Definition green : Result (option (list RepoStatus)) * Duration :=
  page [status "lint" "failure"; status "ci" "success"] Second.

(** A run in which every collaborator succeeds: the check [ci] is pending
    at the first poll and green from the second on. *)
Definition happy : Script :=
  scriptWith (Ok "repo_123") None (Ok openPR) merged
             [page [status "ci" "pending"] Second] green.

(** The temporary directory cannot be created. *)
Definition readOnlyDisk : Script :=
  scriptWith (Err "mkdir repo_123: permission denied") None (Ok openPR) merged
             [] green.

(** [w.Checkout] fails, everything else succeeds. *)
Definition checkoutFails : Script :=
  scriptWith (Ok "repo_123") (Some "worktree contains unstaged changes")
             (Ok openPR) merged [] green.

(** The pull request has conflicts: GitHub reports [mergeable: false]. *)
Definition conflicting : Script :=
  scriptWith (Ok "repo_123") None
             (Ok {| pr_Number := Some 7%Z;
                    pr_Head := Some {| branch_SHA := Some "headsha" |};
                    pr_Mergeable := Some false |})
             merged [] green.

(** The merge request is refused by the API. *)
Definition mergeRefused : Script :=
  scriptWith (Ok "repo_123") None (Ok openPR)
             (Err "405 Pull Request is not mergeable") [] green.

(** A page in which the check [ci] appears twice: a pending entry first,
    a successful one after it. *)
Definition rerunPage : list RepoStatus :=
  [status "ci" "pending"; status "ci" "success"].

Definition rerun : Script :=
  scriptWith (Ok "repo_123") None (Ok openPR) merged [] (page rerunPage Second).

(** The check never leaves [pending]; every request takes half an hour. *)
Definition stuck : Script :=
  scriptWith (Ok "repo_123") None (Ok openPR) merged []
             (page [status "ci" "pending"] (30 * Minute)%N).

Definition tokenClient : Client := {| AccessToken := "token" |}.

(** The second status request fails in transport. *)
Definition flaky : Script :=
  scriptWith (Ok "repo_123") None (Ok openPR) merged
             [page [status "ci" "pending"] Second;
              (Err "connection reset by peer", Second)] green.

(** The check turns red at the first poll. *)
Definition red : Script :=
  scriptWith (Ok "repo_123") None (Ok openPR) merged []
             (page [status "ci" "failure"] Second).

Definition creds0 : Credentials := {| Username := "bot"; Token := "token" |}.

Definition octocat : GithubPR :=
  {| auth := {| auth_Username := "bot"; auth_Password := "token" |};
     filesystem := "repo_123";
     gitHubClient := {| AccessToken := "token" |};
     mergeSHA := "";
     path := "repo_123";
     pr := 0%Z;
     gitRepo := None;
     owner := "octocat";
     repo := "Hello-World" |}.

Definition cloned : GithubPR := set_gitRepo octocat (Some 1).

Definition author0 : Signature :=
  {| sig_Name := "bot"; sig_Email := "bot@example.com"; sig_When := zeroTime |}.

(** Callbacks: one that succeeds with a zero timestamp, one that fails. *)
Definition bump : UpdateFunc nat :=
  fun _ w => (("bump", Some author0, None), w).
Definition broken : UpdateFunc nat :=
  fun _ w => (("", None, Some "cannot write file"), w).

Definition runCreate (sc : Script) (fn : UpdateFunc nat) :=
  Create nat (scripted sc) "feature" "master" "ci" "ci" fn
         (Build_St octocat 0).

(* ================================================================= *)
(** ** The exported constructor, and vocabulary of further properties *)

(** [MakeGithubPR]: [osfs.New(".")] is the filesystem rooted at the current
    directory, [realGoGit{}] forwards [Clone] to go-git, the [git_Clone] of
    the backend. *)
Definition MakeGithubPR {W} (B : Backend W) (repoName : string)
           (creds : Credentials) : M W Call GithubPR :=
  let fs : Filesystem := "." in
  makeGithubPR W B repoName creds fs.

(** The error a call returned, if it returned one. *)
Definition errorOf (c : Call) : option error :=
  match c with
  | CTempDir _ _ _ (Err e) => Some e
  | CChroot _ _ (Err e) => Some e
  | CClone _ _ _ (_, err) => err
  | CHead _ (Err e) => Some e
  | CSetReference _ _ _ err => err
  | CWorktree _ (Err e) => Some e
  | CCheckout _ _ err => err
  | CUpdateFunc _ (_, _, err) => err
  | CCommit _ _ _ (Err e) => Some e
  | CPush _ _ err => err
  | CPRCreate _ _ _ _ (Err e) => Some e
  | CPRGet _ _ _ _ (Err e) => Some e
  | CPRMerge _ _ _ _ _ _ (Err e) => Some e
  | CListStatuses _ _ _ _ _ _ (Err e, _) => Some e
  | CRemoveAll _ err => err
  | _ => None
  end.

Definition isCheckout (c : Call) : bool :=
  match c with CCheckout _ _ _ => true | _ => false end.

Definition isStatusRequest (c : Call) : bool :=
  match c with CListStatuses _ _ _ _ _ _ _ => true | _ => false end.

(** The calls a method can make. *)
Definition allowed (m : Method) (c : Call) : bool :=
  match m, c with
  | MClone, CChroot _ _ _ => true
  | MClone, CClone _ _ _ _ => true
  | MPushCommit, CHead _ _ => true
  | MPushCommit, CSetReference _ _ _ _ => true
  | MPushCommit, CWorktree _ _ => true
  | MPushCommit, CCheckout _ _ _ => true
  | MPushCommit, CUpdateFunc _ _ => true
  | MPushCommit, CNow _ => true
  | MPushCommit, CCommit _ _ _ _ => true
  | MPushCommit, CPush _ _ _ => true
  | MRaisePR, CPRCreate _ _ _ _ _ => true
  | MWaitForPR, CPRGet _ _ _ _ _ => true
  | MWaitForPR, CPrint _ => true
  | MWaitForPR, CListStatuses _ _ _ _ _ _ _ => true
  | MMergePR, CPRGet _ _ _ _ _ => true
  | MMergePR, CPRMerge _ _ _ _ _ _ _ => true
  | MWaitForMergeCommit, CPrint _ => true
  | MWaitForMergeCommit, CListStatuses _ _ _ _ _ _ _ => true
  | MClose, CRemoveAll _ _ => true
  | _, _ => false
  end.

(** The component methods as runs, by name. *)
Definition runMethod {W} (B : Backend W) (m : Method)
           (branchName targetBranch title body statusContext : string)
           (fn : UpdateFunc W) : M (St W) Call unit :=
  match m with
  | MClone => Clone W B
  | MPushCommit => PushCommit W B branchName fn
  | MRaisePR => RaisePR W B branchName targetBranch title body
  | MWaitForPR => WaitForPR W B statusContext
  | MMergePR => MergePR W B
  | MWaitForMergeCommit => WaitForMergeCommit W B statusContext
  | MClose => Close W B
  end.

(** The backend [B] with another [os.RemoveAll]. *)
Definition withRemoveAll {W} (B : Backend W)
           (f : string -> W -> option error * W) : Backend W :=
  {| util_TempDir := util_TempDir B;
     fs_Chroot := fs_Chroot B;
     git_Clone := git_Clone B;
     repo_Head := repo_Head B;
     storer_SetReference := storer_SetReference B;
     repo_Worktree := repo_Worktree B;
     wt_Checkout := wt_Checkout B;
     wt_Commit := wt_Commit B;
     repo_Push := repo_Push B;
     time_Now := time_Now B;
     fmt_Sprintf0 := fmt_Sprintf0 B;
     pulls_Create := pulls_Create B;
     pulls_Get := pulls_Get B;
     pulls_Merge := pulls_Merge B;
     repos_ListStatuses := repos_ListStatuses B;
     os_RemoveAll := f;
     select_tie := select_tie B |}.

(** A callback that returns no author and no error. *)
Definition anonymous : UpdateFunc nat :=
  fun _ w => (("bump", None, None), w).

(** The push is rejected by the remote. *)
Definition pushRejected : Backend nat :=
  {| util_TempDir := util_TempDir (scripted happy);
     fs_Chroot := fs_Chroot (scripted happy);
     git_Clone := git_Clone (scripted happy);
     repo_Head := repo_Head (scripted happy);
     storer_SetReference := storer_SetReference (scripted happy);
     repo_Worktree := repo_Worktree (scripted happy);
     wt_Checkout := wt_Checkout (scripted happy);
     wt_Commit := wt_Commit (scripted happy);
     repo_Push := fun _ _ w => (Some "authentication required", w);
     time_Now := time_Now (scripted happy);
     fmt_Sprintf0 := fmt_Sprintf0 (scripted happy);
     pulls_Create := pulls_Create (scripted happy);
     pulls_Get := pulls_Get (scripted happy);
     pulls_Merge := pulls_Merge (scripted happy);
     repos_ListStatuses := repos_ListStatuses (scripted happy);
     os_RemoveAll := os_RemoveAll (scripted happy);
     select_tie := select_tie (scripted happy) |}.

(** The pull request cannot be fetched. *)
Definition unreachable : Script :=
  scriptWith (Ok "repo_123") None (Err "404 Not Found") merged [] green.

(* ================================================================= *)
(** ** Proof automation *)

(** Symbolic execution of monadic code: unfold the combinators, then split
    on what a collaborator answered. *)
Ltac go_unfold :=
  cbv [bind check checkErr callW call deref ret fail panic print this assign
       attempt defer invoke].

Ltac go_unfold_in H :=
  cbv [bind check checkErr callW call deref ret fail panic print this assign
       attempt defer invoke] in H.

(** Case analysis of a run recorded in [H], on every answer it depends on. *)
Ltac split_on_answers H :=
  repeat (match type of H with
          | context [match ?x with _ => _ end] =>
              lazymatch x with
              | context [match _ with _ => _ end] => fail
              | _ => destruct x eqn:?
              end
          end).

Ltac split_membership H :=
  cbn [In] in H;
  repeat match goal with
         | D : _ \/ _ |- _ => destruct D as [D|D]
         end;
  try discriminate; try contradiction.

(** Case analysis of a run of [Create] on how each step ended. *)
Ltac create_cases H :=
  unfold Create in H; go_unfold_in H;
  split_on_answers H;
  subst;
  cbn [app] in H;
  injection H as <- <- <-;
  repeat match goal with u : unit |- _ => destruct u end.

(** The last element of an explicit list, and what precedes it. *)
Ltac split_last l :=
  lazymatch l with
  | [?x] => constr:((@nil MethodCall, x))
  | ?x :: ?t =>
      let p := split_last t in
      lazymatch p with
      | (?d, ?c) => constr:((x :: d, c))
      end
  end.

(** The same, for an explicit list of calls. *)
Ltac split_last_call l :=
  lazymatch l with
  | [?x] => constr:((@nil Call, x))
  | ?x :: ?t =>
      let p := split_last_call t in
      lazymatch p with
      | (?d, ?c) => constr:((x :: d, c))
      end
  end.

(** Membership in an explicit list, by trying its elements in turn. *)
Ltac find_in := cbn [In]; repeat (first [left; reflexivity | right]).

(* ================================================================= *)
(** * Properties *)

(** ** Runs on concrete inputs *)

Example fullMatch_octocat :
  fullMatch repoNamePattern "octocat/Hello-World" = true.
Proof. reflexivity. Qed.

Example fullMatch_rejects :
  map (fullMatch repoNamePattern) ["octocat"; "a/b/c"; "/b"; "a/"; ""; "/"]
  = [false; false; false; false; false; false].
Proof. reflexivity. Qed.

Example strings_Split_examples :
  strings_Split "octocat/Hello-World" slash = ["octocat"; "Hello-World"]
  /\ strings_Split "a/b/c" slash = ["a"; "b"; "c"]
  /\ strings_Split "" slash = [""]
  /\ strings_Split "a/" slash = ["a"; ""].
Proof. repeat split. Qed.

Example happy_run :
  let '(r, s, l) := runCreate happy bump in
  r = Ret tt
  /\ mergeSHA (obj s) = "mergesha"
  /\ map method l = [MClone; MPushCommit; MRaisePR; MWaitForPR; MMergePR;
                     MWaitForMergeCommit; MClose].
Proof. vm_compute. repeat split. Qed.

(** ** Repository names *)

Definition notSlash : regex := NotLit slash.

Lemma fullMatch_Void (s : string) : fullMatch Void s = false.
Proof. induction s as [|c s IH]; simpl; auto. Qed.

Lemma fullMatch_Star_notSlash (s : string) :
  fullMatch (Star notSlash) s = noSlash s.
Proof.
  induction s as [|c s IH]; simpl; [reflexivity|].
  destruct (Ascii.eqb c slash); simpl.
  - apply fullMatch_Void.
  - exact IH.
Qed.

Lemma fullMatch_Plus_notSlash (s : string) :
  fullMatch (Plus notSlash) s
  = noSlash s && negb (String.eqb s "").
Proof.
  destruct s as [|c s]; simpl; [reflexivity|].
  destruct (Ascii.eqb c slash); simpl.
  - apply fullMatch_Void.
  - rewrite andb_true_r. apply fullMatch_Star_notSlash.
Qed.

Lemma nonempty_eqb (s : string) : negb (String.eqb s "") = true <-> s <> "".
Proof.
  destruct s; simpl; split; intro H; try congruence; try discriminate.
Qed.

(** After at least one byte of the owner has been read. *)
Lemma fullMatch_owner_tail (s : string) :
  fullMatch (Cat (Star notSlash) (Cat (Lit slash) (Plus notSlash))) s = true
  <-> exists a b, s = (a ++ "/" ++ b)%string
                  /\ noSlash a = true /\ noSlash b = true /\ b <> "".
Proof.
  induction s as [|c s IH].
  - simpl. split; [discriminate|].
    intros (a & b & E & _). destruct a; discriminate E.
  - simpl. destruct (Ascii.eqb_spec c slash) as [->|Hc]; simpl.
    + change (fullMatch (Plus notSlash) s = true <->
              exists a b, String slash s = (a ++ "/" ++ b)%string
                          /\ noSlash a = true /\ noSlash b = true /\ b <> "").
      rewrite fullMatch_Plus_notSlash, andb_true_iff, nonempty_eqb.
      split.
      * intros [Hn Hs]. exists "", s. auto.
      * intros (a & b & E & Ha & Hb & Hne).
        destruct a as [|d a]; simpl in E.
        -- injection E as ->. auto.
        -- injection E as <- _. simpl in Ha. discriminate Ha.
    + rewrite IH. split.
      * intros (a & b & -> & Ha & Hb & Hne).
        exists (String c a), b. simpl.
        destruct (Ascii.eqb_spec c slash); [contradiction|]. auto.
      * intros (a & b & E & Ha & Hb & Hne).
        destruct a as [|d a]; simpl in E.
        -- injection E as -> _. contradiction Hc. reflexivity.
        -- injection E as <- ->. simpl in Ha.
           apply andb_true_iff in Ha as [_ Ha]. exists a, b. auto.
Qed.

(** The pattern accepts exactly [owner/repo] with both parts non-empty and
    free of '/'. *)
Lemma repoNamePattern_spec (s : string) :
  fullMatch repoNamePattern s = true
  <-> exists a b, s = (a ++ "/" ++ b)%string
                  /\ a <> "" /\ b <> ""
                  /\ noSlash a = true /\ noSlash b = true.
Proof.
  destruct s as [|c s].
  - simpl. split; [discriminate|].
    intros (a & b & E & _). destruct a; discriminate E.
  - simpl. destruct (Ascii.eqb_spec c slash) as [->|Hc]; simpl.
    + rewrite fullMatch_Void. split; [discriminate|].
      intros (a & b & E & Ha & _ & Hs & _).
      destruct a as [|d a]; [congruence|].
      simpl in E. injection E as <- _. simpl in Hs. discriminate Hs.
    + change (fullMatch (Cat (Star notSlash) (Cat (Lit slash) (Plus notSlash))) s
              = true <->
              exists a b, String c s = (a ++ "/" ++ b)%string
                          /\ a <> "" /\ b <> ""
                          /\ noSlash a = true /\ noSlash b = true).
      rewrite fullMatch_owner_tail. split.
      * intros (a & b & -> & Ha & Hb & Hne).
        exists (String c a), b. simpl.
        destruct (Ascii.eqb_spec c slash); [contradiction|].
        repeat split; auto. discriminate.
      * intros (a & b & E & Hane & Hne & Ha & Hb).
        destruct a as [|d a]; [congruence|].
        simpl in E. injection E as <- ->. simpl in Ha.
        apply andb_true_iff in Ha as [_ Ha]. exists a, b. auto.
Qed.

Lemma strings_Split_noSlash (a : string) :
  noSlash a = true -> strings_Split a slash = [a].
Proof.
  induction a as [|c a IH]; simpl; [reflexivity|].
  destruct (Ascii.eqb c slash); simpl; [discriminate|].
  intro H. rewrite (IH H). reflexivity.
Qed.

Lemma strings_Split_owner_repo (a b : string) :
  noSlash a = true -> noSlash b = true ->
  strings_Split (a ++ "/" ++ b)%string slash = [a; b].
Proof.
  intros Ha Hb. induction a as [|c a IH]; simpl.
  - rewrite (strings_Split_noSlash b Hb). reflexivity.
  - simpl in Ha. destruct (Ascii.eqb c slash); simpl in *; [discriminate|].
    rewrite (IH Ha). reflexivity.
Qed.

(** C8 (as amended).  A name matches the pattern exactly when it is
    [owner/repo] with both parts non-empty and free of '/'.  For such a
    name [makeGithubPR] passes validation and splits it into these two
    parts; it then returns the new object when the temporary directory and
    the chroot succeed, and their error otherwise.  For every other name it
    fails with the validation error before any collaborator is called. *)
Theorem makeGithubPR_repo_name (W : Type) (B : Backend W)
        (repoName : string) (creds : Credentials) (fs : Filesystem) (w : W) :
  (fullMatch repoNamePattern repoName = true
   <-> exists o r, repoName = (o ++ "/" ++ r)%string
                   /\ o <> "" /\ r <> ""
                   /\ noSlash o = true /\ noSlash r = true)
  /\ (fullMatch repoNamePattern repoName = true ->
      exists o r,
        repoName = (o ++ "/" ++ r)%string
        /\ o <> "" /\ r <> "" /\ noSlash o = true /\ noSlash r = true
        /\ makeGithubPR W B repoName creds fs w
           = match util_TempDir B fs "." "repo_" w with
             | (Err e, w1) => (Fail e, w1, [CTempDir fs "." "repo_" (Err e)])
             | (Ok d, w1) =>
                 match fs_Chroot B fs d w1 with
                 | (Err e, w2) =>
                     (Fail e, w2,
                      [CTempDir fs "." "repo_" (Ok d); CChroot fs d (Err e)])
                 | (Ok fs', w2) =>
                     (Ret {| auth := {| auth_Username := Username creds;
                                        auth_Password := Token creds |};
                             filesystem := fs';
                             gitHubClient := {| AccessToken := Token creds |};
                             mergeSHA := "";
                             path := d;
                             pr := 0%Z;
                             gitRepo := None;
                             owner := o;
                             repo := r |}, w2,
                      [CTempDir fs "." "repo_" (Ok d); CChroot fs d (Ok fs')])
                 end
             end)
  /\ (fullMatch repoNamePattern repoName = false ->
      makeGithubPR W B repoName creds fs w
      = (Fail invalidRepoNameError, w, [])).
Proof.
  split; [apply repoNamePattern_spec|]. split.
  - intro Hm. destruct (proj1 (repoNamePattern_spec repoName) Hm)
      as (o & r & E & Ho & Hr & Hso & Hsr).
    exists o, r. repeat (split; [assumption|]).
    unfold makeGithubPR, regexp_MatchString. rewrite Hm. simpl negb. cbv iota.
    rewrite E, (strings_Split_owner_repo o r Hso Hsr).
    go_unfold. simpl.
    destruct (util_TempDir B fs "." "repo_" w) as [[d|e] w1];
      [|reflexivity].
    destruct (fs_Chroot B fs d w1) as [[fs'|e] w2]; reflexivity.
  - intro Hm. unfold makeGithubPR, regexp_MatchString. rewrite Hm.
    reflexivity.
Qed.

(** The theorem at ["octocat/Hello-World"] and at ["a/b/c"]. *)
Lemma makeGithubPR_repo_name_witness :
  (exists g w l,
      makeGithubPR nat (scripted happy) "octocat/Hello-World" creds0 "." 0
      = (Ret g, w, l)
      /\ owner g = "octocat" /\ repo g = "Hello-World")
  /\ makeGithubPR nat (scripted happy) "a/b/c" creds0 "." 0
     = (Fail invalidRepoNameError, 0, []).
Proof.
  pose proof (makeGithubPR_repo_name nat (scripted happy)
                "octocat/Hello-World" creds0 "." 0) as (_ & Hok & _).
  pose proof (makeGithubPR_repo_name nat (scripted happy)
                "a/b/c" creds0 "." 0) as (_ & _ & Hbad).
  split.
  - destruct (Hok eq_refl) as (o & r & E & _ & _ & Hso & Hsr & Hrun).
    pose proof (strings_Split_owner_repo o r Hso Hsr) as Hsplit.
    rewrite <- E in Hsplit. vm_compute in Hsplit.
    injection Hsplit as <- <-.
    eexists _, _, _. split; [exact Hrun|]. split; reflexivity.
  - apply Hbad. reflexivity.
Defined.

(** C8, as first stated, fails: ["octocat/Hello-World"] matches the pattern,
    yet construction fails when the temporary directory cannot be made. *)
Lemma makeGithubPR_valid_name_can_fail :
  fullMatch repoNamePattern "octocat/Hello-World" = true
  /\ makeGithubPR nat (scripted readOnlyDisk) "octocat/Hello-World" creds0 "." 0
     = (Fail "mkdir repo_123: permission denied", 0,
        [CTempDir "." "." "repo_" (Err "mkdir repo_123: permission denied")])
  /\ ~ (exists g w l,
           makeGithubPR nat (scripted readOnlyDisk) "octocat/Hello-World"
                        creds0 "." 0 = (Ret g, w, l)).
Proof.
  split; [reflexivity|]. split; [reflexivity|].
  intros (g & w & l & H). vm_compute in H. discriminate H.
Qed.

(** ** The status scan *)

Lemma scanStatuses_find (ctx : string) (l : list RepoStatus) :
  scanStatuses ctx l = option_map verdictOf (find (decides ctx) l).
Proof.
  induction l as [|st l IH]; [reflexivity|].
  cbn [scanStatuses find]. rewrite IH.
  change (decides ctx st)
    with (String.eqb (GetContext st) ctx
          && (String.eqb (GetState st) "success"
              || String.eqb (GetState st) "failure"
              || String.eqb (GetState st) "error")).
  destruct (String.eqb (GetContext st) ctx); cbn [andb]; [|reflexivity].
  destruct (String.eqb (GetState st) "success") eqn:Es; cbn [orb option_map].
  - unfold verdictOf. rewrite Es. reflexivity.
  - destruct (String.eqb (GetState st) "failure" || String.eqb (GetState st) "error");
      [|reflexivity].
    cbn [option_map]. unfold verdictOf. rewrite Es. reflexivity.
Qed.

Lemma find_skip {A} (f : A -> bool) (pre l : list A) :
  Forall (fun x => f x = false) pre -> find f (pre ++ l) = find f l.
Proof.
  induction 1 as [|x pre Hx _ IH]; simpl; [reflexivity|].
  rewrite Hx. exact IH.
Qed.

Lemma find_none_iff {A} (f : A -> bool) (l : list A) :
  find f l = None <-> forall x, In x l -> f x = false.
Proof.
  induction l as [|a l IH]; simpl.
  - split; [intros _ x []|reflexivity].
  - destruct (f a) eqn:Ha.
    + split; [discriminate|]. intro H. rewrite (H a) in Ha by auto.
      discriminate.
    + rewrite IH. split.
      * intros H x [<-|Hx]; auto.
      * intros H x Hx. apply H. auto.
Qed.

Lemma scanStatuses_first_deciding (ctx : string)
      (pre : list RepoStatus) (st : RepoStatus) (post : list RepoStatus) :
  Forall (fun x => decides ctx x = false) pre ->
  decides ctx st = true ->
  scanStatuses ctx (pre ++ st :: post) = Some (verdictOf st).
Proof.
  intros Hpre Hst.
  rewrite scanStatuses_find, find_skip by assumption.
  simpl. rewrite Hst. reflexivity.
Qed.

Lemma scanStatuses_none_deciding (ctx : string) (l : list RepoStatus) :
  (forall st, In st l -> decides ctx st = false) ->
  scanStatuses ctx l = None.
Proof.
  intro Hl. rewrite scanStatuses_find.
  rewrite (proj2 (find_none_iff _ _) Hl). reflexivity.
Qed.

(** C3 (as amended).  The verdict of a page is that of its first entry, in
    page order, that carries the requested check name in a terminal state
    ([success], [failure], [error]); entries before it, matching or not, and
    all entries after it have no influence, and a page without such an entry
    gives no verdict. *)
Theorem scanStatuses_first_terminal_match (ctx : string) :
  (forall l, scanStatuses ctx l = option_map verdictOf (find (decides ctx) l))
  /\ (forall pre st post,
         Forall (fun x => decides ctx x = false) pre ->
         decides ctx st = true ->
         scanStatuses ctx (pre ++ st :: post) = Some (verdictOf st))
  /\ (forall l,
         (forall st, In st l -> decides ctx st = false) ->
         scanStatuses ctx l = None).
Proof.
  split; [apply scanStatuses_find|]. split.
  - apply scanStatuses_first_deciding.
  - apply scanStatuses_none_deciding.
Qed.

(** The theorem on a page with a pending and a failed entry for [ci]. *)
Lemma scanStatuses_first_terminal_match_witness :
  scanStatuses "ci" ([status "ci" "pending"]
                       ++ status "ci" "failure" :: [status "ci" "success"])
  = Some (Fail statusFailedError)
  /\ scanStatuses "ci" [status "ci" "pending"; status "lint" "failure"] = None.
Proof.
  destruct (scanStatuses_first_terminal_match "ci") as (_ & Hfirst & Hnone).
  split.
  - apply (Hfirst [status "ci" "pending"] (status "ci" "failure")
                  [status "ci" "success"]).
    + repeat constructor.
    + reflexivity.
  - apply Hnone. intros st [<-|[<-|[]]]; reflexivity.
Defined.

(** C3, as first stated, fails: in [rerunPage] the first entry named [ci] is
    pending, yet the later entry decides and the wait ends at once instead
    of polling again. *)
Lemma first_match_does_not_decide :
  find (matchesContext "ci") rerunPage = Some (status "ci" "pending")
  /\ isTerminal (GetState (status "ci" "pending")) = false
  /\ scanStatuses "ci" rerunPage = Some (Ret tt)
  /\ scanStatuses "ci" rerunPage <> scanStatuses "ci" [status "ci" "pending"]
  /\ waitForStatus nat (scripted rerun) "headsha" "octocat" "Hello-World" "ci"
                   (Build_St octocat 0)
     = (Ret tt, Build_St octocat 1,
        [CPrint ("Waiting for headsha to become mergeable" ++ newline)%string;
         CListStatuses {| AccessToken := "token" |} "octocat" "Hello-World"
                       "headsha" 20 pollInterval (page rerunPage Second)]).
Proof.
  repeat split; try reflexivity.
  vm_compute. discriminate.
Qed.

(** ** The status wait *)

Lemma selectResult_before (tie : bool) (t : Duration) (r : Outcome unit) :
  (t < waitDeadline)%N -> selectResult tie t r = r.
Proof.
  intro H. unfold selectResult.
  apply N.ltb_lt in H. rewrite H. reflexivity.
Qed.

Lemma selectResult_after (tie : bool) (t : Duration) (r : Outcome unit) :
  (waitDeadline < t)%N -> selectResult tie t r = Fail statusTimeoutError.
Proof.
  intro H. unfold selectResult.
  destruct (N.ltb_spec t waitDeadline); [lia|].
  destruct (N.eqb_spec t waitDeadline); [lia|reflexivity].
Qed.

Section StatusWait.
Variable W : Type.
Variable B : Backend W.
Variables (c : Client) (shaRef owner repo statusContext : string).

(** One turn of the loop, when the request is issued before the
    deadline. *)
Lemma pollLoop_step (fuel : nat) (elapsed : Duration) (w w' : W)
      (resp : Result (option (list RepoStatus))) (took : Duration) :
  (elapsed + pollInterval < waitDeadline)%N ->
  repos_ListStatuses B c owner repo shaRef 20%Z w = ((resp, took), w') ->
  pollLoop W B (S fuel) c shaRef owner repo statusContext elapsed w
  = let issued := (elapsed + pollInterval)%N in
    let ev := CListStatuses c owner repo shaRef 20%Z issued (resp, took) in
    match resp with
    | Err err =>
        (selectResult (select_tie B) (issued + took)%N (Fail err), w', [ev])
    | Ok statuses =>
        match scanPage statusContext statuses with
        | Some r => (selectResult (select_tie B) (issued + took)%N r, w', [ev])
        | None =>
            let '(r, w'', l) :=
              pollLoop W B fuel c shaRef owner repo statusContext
                       (issued + took)%N w'
            in (r, w'', ev :: l)
        end
    end.
Proof.
  intros Hlt Hcall. cbn [pollLoop].
  destruct (N.leb_spec waitDeadline (elapsed + pollInterval)); [lia|].
  rewrite Hcall. reflexivity.
Qed.

(** More fuel than the deadline allows polls changes nothing. *)
Lemma pollLoop_fuel_mono (fuel : nat) :
  forall (elapsed : Duration) (w : W) (k : nat),
    (waitDeadline <= elapsed + N.of_nat fuel * pollInterval)%N ->
    pollLoop W B (fuel + k) c shaRef owner repo statusContext elapsed w
    = pollLoop W B fuel c shaRef owner repo statusContext elapsed w.
Proof.
  assert (Hpos : (0 < pollInterval)%N) by reflexivity.
  induction fuel as [|fuel IH]; intros elapsed w k Hd.
  - destruct k as [|k]; [reflexivity|]. cbn [Nat.add pollLoop].
    destruct (N.leb_spec waitDeadline (elapsed + pollInterval));
      [reflexivity|lia].
  - cbn [Nat.add pollLoop].
    destruct (N.leb_spec waitDeadline (elapsed + pollInterval));
      [reflexivity|].
    destruct (repos_ListStatuses B c owner repo shaRef 20%Z w)
      as [[resp took] w'].
    cbn [fst snd]. destruct resp as [statuses|err]; [|reflexivity].
    destruct (scanPage statusContext statuses); [reflexivity|].
    rewrite IH; [reflexivity|]. lia.
Qed.

Lemma pollLoop_fuel_enough (n : nat) (w : W) :
  pollFuel <= n ->
  pollLoop W B n c shaRef owner repo statusContext 0%N w
  = pollLoop W B pollFuel c shaRef owner repo statusContext 0%N w.
Proof.
  intro Hn. replace n with (pollFuel + (n - pollFuel)) by lia.
  apply pollLoop_fuel_mono. vm_compute. discriminate.
Qed.

(** Without an answer that ends the wait by the deadline, the wait ends
    in the timeout. *)
Lemma pollLoop_timeout (fuel : nat) :
  forall (elapsed : Duration) (w w' : W) (r : Outcome unit) (l : list Call),
    pollLoop W B fuel c shaRef owner repo statusContext elapsed w = (r, w', l) ->
    (forall ev, In ev l -> resolvedInTime statusContext ev = false) ->
    r = Fail statusTimeoutError.
Proof.
  induction fuel as [|fuel IH]; intros elapsed w w' r l Hrun Hl.
  - cbn [pollLoop] in Hrun. congruence.
  - cbn [pollLoop] in Hrun.
    destruct (N.leb_spec waitDeadline (elapsed + pollInterval));
      [congruence|].
    destruct (repos_ListStatuses B c owner repo shaRef 20%Z w)
      as [[resp took] w1].
    cbn [fst snd] in Hrun.
    destruct resp as [statuses|err].
    + destruct (scanPage statusContext statuses) as [v|] eqn:Hscan.
      * injection Hrun as <- <- <-.
        specialize (Hl _ (or_introl eq_refl)). cbn [resolvedInTime] in Hl.
        rewrite Hscan, andb_true_r in Hl. apply N.leb_gt in Hl.
        apply selectResult_after. exact Hl.
      * destruct (pollLoop W B fuel c shaRef owner repo statusContext
                           (elapsed + pollInterval + took)%N w1)
          as [[r2 w2] l2] eqn:Hrec.
        injection Hrun as <- <- <-.
        apply (IH _ _ _ _ _ Hrec). intros ev Hev. apply Hl. right. exact Hev.
    + injection Hrun as <- <- <-.
      specialize (Hl _ (or_introl eq_refl)). cbn [resolvedInTime] in Hl.
      rewrite andb_true_r in Hl. apply N.leb_gt in Hl.
      apply selectResult_after. exact Hl.
Qed.

End StatusWait.

Lemma waitForStatus_eq (W : Type) (B : Backend W)
      (shaRef owner repo statusContext : string) (s : St W) :
  waitForStatus W B shaRef owner repo statusContext s
  = let '(r, w, l) :=
      pollLoop W B pollFuel (gitHubClient (obj s)) shaRef owner repo
               statusContext 0%N (world s) in
    (r, Build_St (obj s) w,
     CPrint ("Waiting for " ++ shaRef ++ " to become mergeable" ++ newline)%string
     :: l).
Proof.
  unfold waitForStatus. go_unfold.
  destruct (pollLoop W B pollFuel (gitHubClient (obj s)) shaRef owner repo
                     statusContext 0%N (world s)) as [[r w] l].
  reflexivity.
Qed.

(** C1.  Every poll issued before the deadline is classified by the answer
    to its status request.  When the answer reaches the caller before the
    deadline: a transport error is returned as it is, with no further
    request; an entry with the requested check name in state [success],
    reached by the scan, makes the wait return [nil]; one in state
    [failure] or [error] makes it return the failed-check error.  A page
    (or a nil page) in which every entry with the requested name is in some
    other state, or which has no such entry, makes the loop poll again.
    A wait in which no deciding answer arrives by the deadline returns the
    timeout error, which differs from the failed-check error; the bound
    [pollFuel] on the number of polls is never what ends the wait. *)
Theorem waitForStatus_classifies (W : Type) (B : Backend W) (c : Client)
        (shaRef owner repo statusContext : string) :
  (forall (fuel : nat) (elapsed : Duration) (w w' : W)
          (resp : Result (option (list RepoStatus))) (took : Duration),
      (elapsed + pollInterval < waitDeadline)%N ->
      repos_ListStatuses B c owner repo shaRef 20%Z w = ((resp, took), w') ->
      let issued := (elapsed + pollInterval)%N in
      let ev := CListStatuses c owner repo shaRef 20%Z issued (resp, took) in
      let run :=
        pollLoop W B (S fuel) c shaRef owner repo statusContext elapsed w in
      ((issued + took < waitDeadline)%N ->
       (forall e, resp = Err e -> run = (Fail e, w', [ev]))
       /\ (forall pre st post,
              resp = Ok (Some (pre ++ st :: post)) ->
              Forall (fun x => decides statusContext x = false) pre ->
              GetContext st = statusContext ->
              (GetState st = "success" -> run = (Ret tt, w', [ev]))
              /\ (GetState st = "failure" \/ GetState st = "error" ->
                  run = (Fail statusFailedError, w', [ev]))))
      /\ (forall statuses,
             resp = Ok statuses ->
             (forall l st, statuses = Some l -> In st l ->
                           GetContext st = statusContext ->
                           isTerminal (GetState st) = false) ->
             run = let '(r, w'', l) :=
                     pollLoop W B fuel c shaRef owner repo statusContext
                              (issued + took)%N w' in
                   (r, w'', ev :: l)))
  /\ (forall (s s' : St W) (r : Outcome unit) (l : list Call),
         waitForStatus W B shaRef owner repo statusContext s = (r, s', l) ->
         (forall ev, In ev l -> resolvedInTime statusContext ev = false) ->
         r = Fail statusTimeoutError)
  /\ statusTimeoutError <> statusFailedError
  /\ (forall (n : nat) (w : W),
         pollFuel <= n ->
         pollLoop W B n c shaRef owner repo statusContext 0%N w
         = pollLoop W B pollFuel c shaRef owner repo statusContext 0%N w).
Proof.
  split; [|split; [|split]].
  - intros fuel elapsed w w' resp took Hissued Hcall issued ev run.
    subst run. rewrite (pollLoop_step W B c shaRef owner repo statusContext
                                      fuel elapsed w w' resp took Hissued Hcall).
    cbv zeta. fold issued. fold ev. split.
    + intro Harr. split.
      * intros e ->. rewrite selectResult_before by exact Harr. reflexivity.
      * intros pre st post -> Hpre Hctx.
        assert (Hscan : forall v, isTerminal (GetState st) = true ->
                                  verdictOf st = v ->
                                  scanPage statusContext (Some (pre ++ st :: post))
                                  = Some v).
        { intros v Hterm <-. cbn [scanPage].
          apply scanStatuses_first_deciding; [exact Hpre|].
          unfold decides, matchesContext. rewrite Hctx, String.eqb_refl.
          exact Hterm. }
        split.
        -- intro Hs. rewrite (Hscan (Ret tt)).
           ++ rewrite selectResult_before by exact Harr. reflexivity.
           ++ unfold isTerminal. rewrite Hs. reflexivity.
           ++ unfold verdictOf. rewrite Hs. reflexivity.
        -- intro Hs. rewrite (Hscan (Fail statusFailedError)).
           ++ rewrite selectResult_before by exact Harr. reflexivity.
           ++ unfold isTerminal. destruct Hs as [-> | ->]; reflexivity.
           ++ unfold verdictOf. destruct Hs as [-> | ->]; reflexivity.
    + intros statuses -> Hnone.
      assert (Hscan : scanPage statusContext statuses = None).
      { destruct statuses as [l|]; [|reflexivity]. cbn [scanPage].
        apply scanStatuses_none_deciding. intros st Hin.
        unfold decides, matchesContext.
        destruct (String.eqb_spec (GetContext st) statusContext) as [E|];
          [|reflexivity].
        cbn [andb]. exact (Hnone l st eq_refl Hin E). }
      rewrite Hscan. reflexivity.
  - intros s s' r l Hrun Hl. rewrite waitForStatus_eq in Hrun.
    destruct (pollLoop W B pollFuel (gitHubClient (obj s)) shaRef owner repo
                       statusContext 0%N (world s)) as [[r1 w1] l1] eqn:Hloop.
    injection Hrun as <- _ <-.
    apply (pollLoop_timeout W B _ _ _ _ _ _ _ _ _ _ _ Hloop).
    intros ev Hev. apply Hl. right. exact Hev.
  - discriminate.
  - intros n w Hn. apply pollLoop_fuel_enough. exact Hn.
Qed.

(** The theorem on scripted feeds: a transport error at the second
    request, a green and a red check, a pending one, and a check that stays
    pending past the deadline. *)
Lemma waitForStatus_classifies_witness :
  pollLoop nat (scripted flaky) 1 tokenClient "headsha" "octocat"
           "Hello-World" "ci" 0%N 1
  = (Fail "connection reset by peer", 2,
     [CListStatuses tokenClient "octocat" "Hello-World" "headsha" 20
                    pollInterval (Err "connection reset by peer", Second)])
  /\ pollLoop nat (scripted happy) 1 tokenClient "headsha" "octocat"
              "Hello-World" "ci" 0%N 1
     = (Ret tt, 2,
        [CListStatuses tokenClient "octocat" "Hello-World" "headsha" 20
                       pollInterval green])
  /\ pollLoop nat (scripted red) 1 tokenClient "headsha" "octocat"
              "Hello-World" "ci" 0%N 0
     = (Fail statusFailedError, 1,
        [CListStatuses tokenClient "octocat" "Hello-World" "headsha" 20
                       pollInterval (page [status "ci" "failure"] Second)])
  /\ pollLoop nat (scripted happy) 2 tokenClient "headsha" "octocat"
              "Hello-World" "ci" 0%N 0
     = (let '(r, w, l) :=
          pollLoop nat (scripted happy) 1 tokenClient "headsha" "octocat"
                   "Hello-World" "ci" (pollInterval + Second)%N 1 in
        (r, w,
         CListStatuses tokenClient "octocat" "Hello-World" "headsha" 20
                       pollInterval (page [status "ci" "pending"] Second)
         :: l))
  /\ fst (fst (waitForStatus nat (scripted stuck) "headsha" "octocat"
                             "Hello-World" "ci" (Build_St octocat 0)))
     = Fail statusTimeoutError.
Proof.
  assert (Hissued : (0 + pollInterval < waitDeadline)%N) by reflexivity.
  assert (Harrived : (0 + pollInterval + Second < waitDeadline)%N)
    by reflexivity.
  split; [|split; [|split; [|split]]].
  - destruct (waitForStatus_classifies nat (scripted flaky) tokenClient
                "headsha" "octocat" "Hello-World" "ci") as (Hpoll & _).
    destruct (Hpoll 0 0%N 1 2 (Err "connection reset by peer") Second
                    Hissued eq_refl) as (Hdecided & _).
    exact (proj1 (Hdecided Harrived) _ eq_refl).
  - destruct (waitForStatus_classifies nat (scripted happy) tokenClient
                "headsha" "octocat" "Hello-World" "ci") as (Hpoll & _).
    destruct (Hpoll 0 0%N 1 2 (fst green) Second Hissued eq_refl)
      as (Hdecided & _).
    destruct (Hdecided Harrived) as (_ & Hentry).
    apply (Hentry [status "lint" "failure"] (status "ci" "success") []
                  eq_refl).
    + repeat constructor.
    + reflexivity.
    + reflexivity.
  - destruct (waitForStatus_classifies nat (scripted red) tokenClient
                "headsha" "octocat" "Hello-World" "ci") as (Hpoll & _).
    destruct (Hpoll 0 0%N 0 1 (Ok (Some [status "ci" "failure"])) Second
                    Hissued eq_refl) as (Hdecided & _).
    destruct (Hdecided Harrived) as (_ & Hentry).
    apply (Hentry [] (status "ci" "failure") [] eq_refl).
    + constructor.
    + reflexivity.
    + left. reflexivity.
  - destruct (waitForStatus_classifies nat (scripted happy) tokenClient
                "headsha" "octocat" "Hello-World" "ci") as (Hpoll & _).
    destruct (Hpoll 1 0%N 0 1 (Ok (Some [status "ci" "pending"])) Second
                    Hissued eq_refl) as (_ & Hagain).
    apply (Hagain _ eq_refl).
    intros l st [= <-] [<-|[]] _. reflexivity.
  - destruct (waitForStatus_classifies nat (scripted stuck) tokenClient
                "headsha" "octocat" "Hello-World" "ci")
      as (_ & Htimeout & _).
    destruct (waitForStatus nat (scripted stuck) "headsha" "octocat"
                            "Hello-World" "ci" (Build_St octocat 0))
      as [[r s'] l] eqn:Hrun.
    cbn [fst]. apply (Htimeout _ _ _ _ Hrun).
    vm_compute in Hrun. injection Hrun as _ _ <-.
    intros ev [<-|[<-|[<-|[]]]]; reflexivity.
Defined.

(** ** Merging *)

(** C5.  When the pull request fetched by [MergePR] has its mergeable flag
    nil or false, [MergePR] fails with the not-mergeable error, the fetch is
    the only request it makes and the object is left as it was; whenever a
    run of [MergePR] does contain a merge request, the fetch had succeeded
    with the flag present and true. *)
Theorem MergePR_not_mergeable (W : Type) (B : Backend W) (s : St W) :
  (forall (p : PullRequest) (w1 : W),
      pulls_Get B (gitHubClient (obj s)) (owner (obj s)) (repo (obj s))
                (pr (obj s)) (world s) = (Ok p, w1) ->
      pr_Mergeable p = None \/ pr_Mergeable p = Some false ->
      MergePR W B s
      = (Fail notMergeableError, Build_St (obj s) w1,
         [CPRGet (gitHubClient (obj s)) (owner (obj s)) (repo (obj s))
                 (pr (obj s)) (Ok p)]))
  /\ (forall (r : Outcome unit) (s' : St W) (l : list Call),
         MergePR W B s = (r, s', l) ->
         existsb isMergeCall l = true ->
         exists (p : PullRequest) (w1 : W),
           pulls_Get B (gitHubClient (obj s)) (owner (obj s)) (repo (obj s))
                     (pr (obj s)) (world s) = (Ok p, w1)
           /\ pr_Mergeable p = Some true).
Proof.
  destruct s as [g w]. cbn [obj world]. split.
  - intros p w1 Hget Hflag. unfold MergePR. go_unfold. cbn [obj world].
    rewrite Hget. destruct Hflag as [-> | ->]; reflexivity.
  - intros r s' l Hrun Hcall. unfold MergePR in Hrun. go_unfold_in Hrun.
    cbn [obj world] in Hrun.
    destruct (pulls_Get B (gitHubClient g) (owner g) (repo g) (pr g) w)
      as [[p|e] w1].
    + exists p, w1. split; [reflexivity|].
      destruct (pr_Mergeable p) as [[|]|]; [reflexivity| |];
        injection Hrun as <- <- <-; discriminate Hcall.
    + injection Hrun as <- <- <-. discriminate Hcall.
Qed.

(** The theorem on a pull request GitHub reports as conflicting. *)
Lemma MergePR_not_mergeable_witness :
  MergePR nat (scripted conflicting) (Build_St cloned 0)
  = (Fail notMergeableError, Build_St cloned 0,
     [CPRGet tokenClient "octocat" "Hello-World" 0 (sc_get conflicting)])
  /\ exists p, sc_get happy = Ok p /\ pr_Mergeable p = Some true.
Proof.
  destruct (MergePR_not_mergeable nat (scripted conflicting)
                                  (Build_St cloned 0)) as (Hno & _).
  destruct (MergePR_not_mergeable nat (scripted happy)
                                  (Build_St cloned 0)) as (_ & Hyes).
  split.
  - apply (Hno _ 0 eq_refl). right. reflexivity.
  - destruct (Hyes _ _ _ eq_refl eq_refl) as (p & w1 & Hget & Hflag).
    exists p. split; [|exact Hflag].
    exact (f_equal fst Hget).
Defined.

(** ** Committing and pushing *)

(** C6.  When the callback fails, [PushCommit] returns the callback's error
    as it is, and its run contains no commit and no push: the calls made are
    those up to the callback. *)
Theorem PushCommit_mutation_error (W : Type) (B : Backend W)
        (branchName : string) (fn : UpdateFunc W) (s : St W) :
  (forall (g : Repository) (headRef : Hash) (wt : Worktree)
          (ck : option error) (msg : string) (author : option Signature)
          (e : error) (w1 w2 w3 w4 w5 : W),
      let branch := ("refs/heads/" ++ branchName)%string in
      gitRepo (obj s) = Some g ->
      repo_Head B g (world s) = (Ok headRef, w1) ->
      storer_SetReference B g branch headRef w1 = (None, w2) ->
      repo_Worktree B g w2 = (Ok wt, w3) ->
      wt_Checkout B wt branch w3 = (ck, w4) ->
      fn wt w4 = ((msg, author, Some e), w5) ->
      PushCommit W B branchName fn s
      = (Fail e, Build_St (obj s) w5,
         [CHead g (Ok headRef); CSetReference g branch headRef None;
          CWorktree g (Ok wt); CCheckout wt branch ck;
          CUpdateFunc wt (msg, author, Some e)]))
  /\ (forall (r : Outcome unit) (s' : St W) (l : list Call),
         PushCommit W B branchName fn s = (r, s', l) ->
         forall (wt : Worktree) (msg : string) (author : option Signature)
                (e : error),
           In (CUpdateFunc wt (msg, author, Some e)) l ->
           r = Fail e
           /\ existsb isCommit l = false /\ existsb isPush l = false).
Proof.
  destruct s as [g0 w]. cbn [obj world]. split.
  - intros g headRef wt ck msg author e w1 w2 w3 w4 w5
           Hrepo Hhead Hset Hwt Hck Hfn.
    unfold PushCommit. go_unfold. cbn [obj world].
    rewrite Hrepo. cbn [obj world]. rewrite Hhead. cbn [obj world].
    rewrite Hset. cbn [obj world]. rewrite Hwt. cbn [obj world].
    rewrite Hck. cbn [obj world]. rewrite Hfn. reflexivity.
  - intros r s' l Hrun wt msg author e Hin.
    unfold PushCommit in Hrun. go_unfold_in Hrun. cbn [obj world] in Hrun.
    split_on_answers Hrun.
    all: injection Hrun as <- <- <-.
    all: split_membership Hin.
    all: match goal with
         | E : CUpdateFunc _ _ = CUpdateFunc _ _ |- _ =>
             injection E as -> -> -> ->
         end.
    all: repeat split; reflexivity.
Qed.

(** The theorem on a callback that cannot write its file. *)
Lemma PushCommit_mutation_error_witness :
  PushCommit nat (scripted happy) "feature" broken (Build_St cloned 0)
  = (Fail "cannot write file", Build_St cloned 0,
     [CHead 1 (Ok "basesha");
      CSetReference 1 "refs/heads/feature" "basesha" None;
      CWorktree 1 (Ok 1); CCheckout 1 "refs/heads/feature" None;
      CUpdateFunc 1 ("", None, Some "cannot write file")])
  /\ existsb isPush
       (snd (PushCommit nat (scripted happy) "feature" broken
                        (Build_St cloned 0))) = false.
Proof.
  destruct (PushCommit_mutation_error nat (scripted happy) "feature" broken
                                      (Build_St cloned 0)) as (Hrun & Hlog).
  split.
  - exact (Hrun 1 "basesha" 1 None "" None "cannot write file" 0 0 0 0 0
                eq_refl eq_refl eq_refl eq_refl eq_refl eq_refl).
  - destruct (PushCommit nat (scripted happy) "feature" broken
                         (Build_St cloned 0)) as [[r s'] l] eqn:E.
    refine (proj2 (proj2 (Hlog r s' l eq_refl 1 "" None "cannot write file" _))).
    vm_compute in E. injection E as _ _ <-.
    right. right. right. right. left. reflexivity.
Defined.

(** C9.  After a callback that succeeds with an author, the next calls of
    [PushCommit] are: for a zero timestamp, one reading of the clock and
    then the commit, made with the author's name and e-mail and with the
    time just read; for any other timestamp, the commit alone, made with
    the author as the callback returned it.  The run has no other commit. *)
Theorem PushCommit_commit_time (W : Type) (B : Backend W)
        (branchName : string) (fn : UpdateFunc W) (s s' : St W)
        (r : Outcome unit) (l : list Call)
        (wt : Worktree) (msg : string) (a : Signature) :
  PushCommit W B branchName fn s = (r, s', l) ->
  In (CUpdateFunc wt (msg, Some a, None)) l ->
  exists (pre rest : list Call) (res : Result Hash),
    existsb isCommit pre = false /\ existsb isCommit rest = false
    /\ (sig_When a = zeroTime ->
        exists now : Time,
          l = pre ++ CUpdateFunc wt (msg, Some a, None) :: CNow now
                  :: CCommit wt msg (setWhen a now) res :: rest
          /\ sig_When (setWhen a now) = now
          /\ (now <> zeroTime -> sig_When (setWhen a now) <> zeroTime))
    /\ (sig_When a <> zeroTime ->
        l = pre ++ CUpdateFunc wt (msg, Some a, None)
                :: CCommit wt msg a res :: rest).
Proof.
  destruct s as [g0 w]. intros Hrun Hin.
  unfold PushCommit in Hrun. go_unfold_in Hrun. cbn [obj world] in Hrun.
  split_on_answers Hrun.
  all: injection Hrun as <- <- <-.
  all: split_membership Hin.
  all: match goal with
       | E : CUpdateFunc _ _ = CUpdateFunc _ _ |- _ =>
           injection E as -> -> ->
       end.
  all: match goal with
       | E : Time_Equal _ zeroTime = _ |- _ =>
           unfold Time_Equal in E;
           first [apply Z.eqb_eq in E | apply Z.eqb_neq in E]
       end.
  all: match goal with
       | |- context [?c1 :: ?c2 :: ?c3 :: ?c4 :: CUpdateFunc _ _ :: CNow _
                         :: CCommit _ _ _ ?res :: ?rest = _] =>
           exists [c1; c2; c3; c4], rest, res
       | |- context [?c1 :: ?c2 :: ?c3 :: ?c4 :: CUpdateFunc _ _
                         :: CCommit _ _ _ ?res :: ?rest = _] =>
           exists [c1; c2; c3; c4], rest, res
       end.
  all: split; [reflexivity|]; split; [reflexivity|]; split; intro Hz.
  all: try contradiction; try reflexivity.
  all: eexists; split; [reflexivity|]; split; [reflexivity|].
  all: intro Hn; exact Hn.
Qed.

(** The theorem on a callback that leaves the timestamp at its zero value:
    the commit carries a reading of the clock. *)
Lemma PushCommit_commit_time_witness :
  exists (pre rest : list Call) (res : Result Hash) (now : Time),
    snd (PushCommit nat (scripted happy) "feature" bump (Build_St cloned 0))
    = pre ++ CUpdateFunc 1 ("bump", Some author0, None)
          :: CNow now :: CCommit 1 "bump" (setWhen author0 now) res :: rest.
Proof.
  destruct (PushCommit nat (scripted happy) "feature" bump (Build_St cloned 0))
    as [[r s'] l] eqn:Hrun.
  assert (Hin : In (CUpdateFunc 1 ("bump", Some author0, None)) l).
  { vm_compute in Hrun. injection Hrun as _ _ <-.
    right. right. right. right. left. reflexivity. }
  destruct (PushCommit_commit_time nat (scripted happy) "feature" bump
              (Build_St cloned 0) s' r l 1 "bump" author0 Hrun Hin)
    as (pre & rest & res & _ & _ & Hzero & _).
  destruct (Hzero eq_refl) as (now & Hl & _).
  exists pre, rest, res, now. exact Hl.
Defined.

(** C4, where the code departs from it.  A run of [PushCommit] in which
    [w.Checkout] returned an error does not end there: the callback is
    called next, on the same worktree, and what the run returns is decided
    by the steps that follow, the checkout error being read by no one. *)
Theorem PushCommit_drops_checkout_error (W : Type) (B : Backend W)
        (branchName : string) (fn : UpdateFunc W) (s s' : St W)
        (r : Outcome unit) (l : list Call)
        (wt : Worktree) (branch : string) (e : error) :
  PushCommit W B branchName fn s = (r, s', l) ->
  In (CCheckout wt branch (Some e)) l ->
  exists (pre rest : list Call) (res : UpdateResult),
    l = pre ++ CCheckout wt branch (Some e) :: CUpdateFunc wt res :: rest
    /\ (forall a, snd res = None -> snd (fst res) = Some a ->
                  existsb isCommit rest = true).
Proof.
  destruct s as [g0 w]. intros Hrun Hin.
  unfold PushCommit in Hrun. go_unfold_in Hrun. cbn [obj world] in Hrun.
  split_on_answers Hrun.
  all: injection Hrun as <- <- <-.
  all: split_membership Hin.
  all: match goal with
       | E : CCheckout _ _ _ = CCheckout _ _ _ |- _ =>
           injection E as -> <- ->
       end.
  all: match goal with
       | |- context [?c1 :: ?c2 :: ?c3 :: CCheckout _ _ _
                         :: CUpdateFunc _ ?res :: ?rest = _] =>
           exists [c1; c2; c3], rest, res
       end.
  all: split; [reflexivity|]; cbn [fst snd]; intros author Herr Hauthor.
  all: try discriminate Herr; try discriminate Hauthor.
  all: reflexivity.
Qed.

(** The theorem at the failing input: [w.Checkout] fails, [PushCommit] goes
    on to the callback, the commit and the push, and returns [nil]. *)
Lemma PushCommit_drops_checkout_error_witness :
  PushCommit nat (scripted checkoutFails) "feature" bump (Build_St cloned 0)
  = (Ret tt, Build_St cloned 0,
     [CHead 1 (Ok "basesha");
      CSetReference 1 "refs/heads/feature" "basesha" None;
      CWorktree 1 (Ok 1);
      CCheckout 1 "refs/heads/feature"
                (Some "worktree contains unstaged changes");
      CUpdateFunc 1 ("bump", Some author0, None);
      CNow (sc_now checkoutFails);
      CCommit 1 "bump" (setWhen author0 (sc_now checkoutFails)) (Ok "newsha");
      CSetReference 1 "refs/remotes/origin/feature" "basesha" None;
      CPush 1 (auth cloned) None])
  /\ exists (pre rest : list Call) (res : UpdateResult),
      snd (PushCommit nat (scripted checkoutFails) "feature" bump
                      (Build_St cloned 0))
      = pre ++ CCheckout 1 "refs/heads/feature"
                         (Some "worktree contains unstaged changes")
            :: CUpdateFunc 1 res :: rest.
Proof.
  split; [reflexivity|].
  destruct (PushCommit nat (scripted checkoutFails) "feature" bump
                       (Build_St cloned 0)) as [[r s'] l] eqn:Hrun.
  assert (Hin : In (CCheckout 1 "refs/heads/feature"
                              (Some "worktree contains unstaged changes")) l).
  { vm_compute in Hrun. injection Hrun as _ _ <-.
    right. right. right. left. reflexivity. }
  destruct (PushCommit_drops_checkout_error nat (scripted checkoutFails)
              "feature" bump (Build_St cloned 0) s' r l 1 _ _ Hrun Hin)
    as (pre & rest & res & Hl & _).
  exists pre, rest, res. exact Hl.
Defined.

(** ** What each method leaves behind *)



Lemma quiet_titledTest (l : list Call) :
  forallb quiet l = true -> forallb titledTest l = true.
Proof.
  induction l as [|ev l IH]; [reflexivity|].
  cbn [forallb]. intro H. apply andb_true_iff in H as [Hev Hl].
  rewrite (IH Hl), andb_true_r. destruct ev; try reflexivity; discriminate Hev.
Qed.

Section Frames.
Variable W : Type.
Variable B : Backend W.

Lemma pollLoop_quiet (c : Client) (shaRef owner repo statusContext : string)
      (fuel : nat) :
  forall (elapsed : Duration) (w : W),
    forallb quiet
            (snd (pollLoop W B fuel c shaRef owner repo statusContext
                           elapsed w)) = true.
Proof.
  induction fuel as [|fuel IH]; intros elapsed w; [reflexivity|].
  cbn [pollLoop].
  destruct (waitDeadline <=? elapsed + pollInterval)%N; [reflexivity|].
  destruct (repos_ListStatuses B c owner repo shaRef 20%Z w)
    as [[resp took] w'].
  cbn [fst snd]. destruct resp as [statuses|err]; [|reflexivity].
  destruct (scanPage statusContext statuses); [reflexivity|].
  specialize (IH (elapsed + pollInterval + took)%N w').
  destruct (pollLoop W B fuel c shaRef owner repo statusContext
                     (elapsed + pollInterval + took)%N w') as [[r w''] l].
  exact IH.
Qed.

Lemma waitForStatus_keeps (shaRef owner repo statusContext : string)
      (s s' : St W) (r : Outcome unit) (l : list Call) :
  waitForStatus W B shaRef owner repo statusContext s = (r, s', l) ->
  keeps s s' l.
Proof.
  rewrite waitForStatus_eq.
  pose proof (pollLoop_quiet (gitHubClient (obj s)) shaRef owner repo
                             statusContext pollFuel 0%N (world s)) as Hq.
  destruct (pollLoop W B pollFuel (gitHubClient (obj s)) shaRef owner repo
                     statusContext 0%N (world s)) as [[r1 w1] l1].
  intros [= <- <- <-]. repeat split. exact Hq.
Qed.

Lemma Clone_keeps (s s' : St W) (r : Outcome unit) (l : list Call) :
  Clone W B s = (r, s', l) -> keeps s s' l.
Proof.
  destruct s as [g w]. intro Hrun.
  unfold Clone in Hrun. go_unfold_in Hrun. cbn [obj world] in Hrun.
  split_on_answers Hrun.
  all: injection Hrun as <- <- <-; repeat split.
Qed.

Lemma PushCommit_keeps (branchName : string) (fn : UpdateFunc W)
      (s s' : St W) (r : Outcome unit) (l : list Call) :
  PushCommit W B branchName fn s = (r, s', l) -> keeps s s' l.
Proof.
  destruct s as [g w]. intro Hrun.
  unfold PushCommit in Hrun. go_unfold_in Hrun. cbn [obj world] in Hrun.
  split_on_answers Hrun.
  all: injection Hrun as <- <- <-; repeat split.
Qed.

Lemma Close_keeps (s s' : St W) (r : Outcome unit) (l : list Call) :
  Close W B s = (r, s', l) -> keeps s s' l.
Proof.
  destruct s as [g w]. intro Hrun.
  unfold Close in Hrun. go_unfold_in Hrun. cbn [obj world] in Hrun.
  split_on_answers Hrun.
  all: injection Hrun as <- <- <-; repeat split.
Qed.

Lemma Close_calls (s s' : St W) (r : Outcome unit) (l : list Call) :
  Close W B s = (r, s', l) ->
  exists res, l = [CRemoveAll (path (obj s)) res] /\ r <> Panicked.
Proof.
  destruct s as [g w]. intro Hrun.
  unfold Close in Hrun. go_unfold_in Hrun. cbn [obj world] in Hrun.
  split_on_answers Hrun.
  all: injection Hrun as <- <- <-; eexists; split;
    [reflexivity|discriminate].
Qed.

Lemma WaitForMergeCommit_keeps (statusContext : string)
      (s s' : St W) (r : Outcome unit) (l : list Call) :
  WaitForMergeCommit W B statusContext s = (r, s', l) -> keeps s s' l.
Proof.
  unfold WaitForMergeCommit. go_unfold.
  destruct (waitForStatus W B (mergeSHA (obj s)) (owner (obj s))
                          (repo (obj s)) statusContext s)
    as [[r1 s1] l1] eqn:Hwait.
  intros [= <- <- <-]. exact (waitForStatus_keeps _ _ _ _ _ _ _ _ Hwait).
Qed.

Lemma WaitForPR_keeps (statusContext : string)
      (s s' : St W) (r : Outcome unit) (l : list Call) :
  WaitForPR W B statusContext s = (r, s', l) -> keeps s s' l.
Proof.
  destruct s as [g w]. intro Hrun.
  unfold WaitForPR in Hrun. go_unfold_in Hrun. cbn [obj world] in Hrun.
  split_on_answers Hrun.
  all: injection Hrun as <- <- <-; try (repeat split; fail).
  match goal with
  | H : waitForStatus _ _ _ _ _ _ _ = _ |- _ =>
      apply waitForStatus_keeps in H; destruct H as (Hp & Hm & Hq)
  end.
  repeat split; assumption.
Qed.

(** [RaisePR] makes one request, with the title and body it is given. *)
Lemma RaisePR_calls (sourceBranch targetBranch title body : string)
      (s s' : St W) (r : Outcome unit) (l : list Call) :
  RaisePR W B sourceBranch targetBranch title body s = (r, s', l) ->
  path (obj s') = path (obj s)
  /\ mergeSHA (obj s') = mergeSHA (obj s)
  /\ exists res,
      l = [CPRCreate (gitHubClient (obj s)) (owner (obj s)) (repo (obj s))
                     {| newpr_Title := title; newpr_Head := sourceBranch;
                        newpr_Base := targetBranch; newpr_Body := body |}
                     res].
Proof.
  destruct s as [g w]. intro Hrun.
  unfold RaisePR in Hrun. go_unfold_in Hrun. cbn [obj world] in Hrun.
  split_on_answers Hrun.
  all: injection Hrun as <- <- <-; repeat split; eexists; reflexivity.
Qed.

(** [MergePR] changes [mergeSHA] only when it returns [nil], to the SHA
    its merge request returned. *)
Lemma MergePR_tracks (s s' : St W) (r : Outcome unit) (l : list Call) :
  MergePR W B s = (r, s', l) ->
  path (obj s') = path (obj s)
  /\ mergeSHA (obj s') = lastMerged l (mergeSHA (obj s))
  /\ (r <> Ret tt -> mergeSHA (obj s') = mergeSHA (obj s))
  /\ (r = Ret tt -> existsb isMerged l = true)
  /\ (r <> Ret tt -> existsb isMerged l = false)
  /\ forallb titledTest l = true.
Proof.
  destruct s as [g w]. intro Hrun.
  unfold MergePR in Hrun. go_unfold_in Hrun. cbn [obj world] in Hrun.
  split_on_answers Hrun.
  all: injection Hrun as <- <- <-.
  all: try match goal with
           | H : merge_SHA ?m = _ |- _ =>
               destruct m as [sha]; cbn [merge_SHA] in H; subst sha
           end.
  all: repeat split; try reflexivity; try discriminate.
  all: intro Hne; contradiction Hne; reflexivity.
Qed.

End Frames.

Lemma Clone_no_panic (W : Type) (B : Backend W)
      (s s' : St W) (r : Outcome unit) (l : list Call) :
  Clone W B s = (r, s', l) -> r <> Panicked.
Proof.
  destruct s as [g w]. intro Hrun.
  unfold Clone in Hrun. go_unfold_in Hrun. cbn [obj world] in Hrun.
  split_on_answers Hrun.
  all: injection Hrun as <- <- <-; discriminate.
Qed.

(** ** The orchestrator *)

(** C2.  A run of [Create] executes a non-empty prefix of the sequence
    Clone, PushCommit, RaisePR, WaitForPR, MergePR, WaitForMergeCommit, in
    that order, each step but the last of the prefix having returned [nil];
    it returns what the last executed step returned, so a step that fails
    ends the sequence and its error is the run's; whatever that step
    returned (also when it is Clone), [Close] is invoked after it, on the
    temporary directory, and is the last thing the run does. *)
Theorem Create_stops_at_first_failure (W : Type) (B : Backend W)
        (branchName targetBranch prStatusContext masterStatusContext : string)
        (fn : UpdateFunc W) (s s' : St W) (r : Outcome unit)
        (l : list MethodCall) :
  Create W B branchName targetBranch prStatusContext masterStatusContext fn s
  = (r, s', l) ->
  exists (done : list MethodCall) (close : MethodCall) (res : option error),
    l = done ++ [close]
    /\ method close = MClose
    /\ calls close = [CRemoveAll (path (obj s)) res]
    /\ done <> []
    /\ map method done = firstn (length done) createOrder
    /\ Forall (fun mc => result mc = Ret tt) (removelast done)
    /\ r = result (last done close)
    /\ (r = Ret tt -> map method done = createOrder).
Proof.
  intro Hrun. create_cases Hrun.
  all: try match goal with
           | H : Clone _ _ _ = (Panicked, _, _) |- _ =>
               contradiction (Clone_no_panic _ _ _ _ _ _ H); reflexivity
           end.
  all: match goal with
       | H : Close _ _ _ = _ |- _ =>
           destruct (Close_calls _ _ _ _ _ _ H) as (res & -> & Hclose)
       end.
  all: try (contradiction Hclose; reflexivity).
  all: repeat match goal with
         | H : Clone _ _ _ = _ |- _ =>
             apply Clone_keeps in H; destruct H as (H & _)
         | H : PushCommit _ _ _ _ _ = _ |- _ =>
             apply PushCommit_keeps in H; destruct H as (H & _)
         | H : RaisePR _ _ _ _ _ _ _ = _ |- _ =>
             apply RaisePR_calls in H; destruct H as (H & _)
         | H : WaitForPR _ _ _ _ = _ |- _ =>
             apply WaitForPR_keeps in H; destruct H as (H & _)
         | H : MergePR _ _ _ = _ |- _ =>
             apply MergePR_tracks in H; destruct H as (H & _)
         | H : WaitForMergeCommit _ _ _ _ = _ |- _ =>
             apply WaitForMergeCommit_keeps in H; destruct H as (H & _)
         end.
  all: match goal with
       | |- exists done close res, ?L = _ /\ _ =>
           let p := split_last L in
           lazymatch p with
           | (?d, ?c) => exists d, c, res
           end
       end.
  all: split; [reflexivity|]; split; [reflexivity|]; split;
    [cbn [calls]; do 2 f_equal; congruence|].
  all: split; [discriminate|]; split; [reflexivity|]; split;
    [cbn [removelast]; repeat constructor|].
  all: split; [reflexivity|].
  all: try discriminate.
  all: intros _; reflexivity.
Qed.

(** The theorem on a run whose pull request turns out to be conflicting:
    the run ends at MergePR with its error, and Close follows. *)
Lemma Create_stops_at_first_failure_witness :
  exists (done : list MethodCall) (close : MethodCall) (res : option error),
    snd (runCreate conflicting bump) = done ++ [close]
    /\ method close = MClose
    /\ calls close = [CRemoveAll "repo_123" res]
    /\ map method done = firstn (length done) createOrder
    /\ Fail notMergeableError = result (last done close).
Proof.
  destruct (runCreate conflicting bump) as [[r s'] l] eqn:Hrun.
  assert (Hr : r = Fail notMergeableError).
  { vm_compute in Hrun. injection Hrun as <- _ _. reflexivity. }
  unfold runCreate in Hrun.
  destruct (Create_stops_at_first_failure nat (scripted conflicting)
              "feature" "master" "ci" "ci" bump (Build_St octocat 0) s' r l
              Hrun)
    as (done & close & res & Hl & Hm & Hc & _ & Hord & _ & Hlast & _).
  exists done, close, res. rewrite <- Hr. cbn [snd]. auto.
Defined.

(** C10.  In every run of [Create], whatever its arguments and whatever the
    collaborators answer, no call opens a pull request with a title other
    than ["test"] or a body other than the empty string; the invocation of
    RaisePR, when the run reaches it, makes exactly one request, with title
    ["test"], head [branchName], base [targetBranch] and an empty body. *)
Theorem Create_fixed_title (W : Type) (B : Backend W)
        (branchName targetBranch prStatusContext masterStatusContext : string)
        (fn : UpdateFunc W) (s : St W) :
  Forall (fun mc =>
            forallb titledTest (calls mc) = true
            /\ (method mc = MRaisePR ->
                exists c o r res,
                  calls mc
                  = [CPRCreate c o r
                               {| newpr_Title := "test";
                                  newpr_Head := branchName;
                                  newpr_Base := targetBranch;
                                  newpr_Body := "" |} res]))
         (snd (Create W B branchName targetBranch prStatusContext
                      masterStatusContext fn s)).
Proof.
  destruct (Create W B branchName targetBranch prStatusContext
                   masterStatusContext fn s) as [[r s'] l] eqn:Hrun.
  cbn [snd]. create_cases Hrun.
  all: repeat match goal with
         | H : Clone _ _ _ = _ |- _ =>
             apply Clone_keeps in H; destruct H as (_ & _ & H);
             apply quiet_titledTest in H
         | H : PushCommit _ _ _ _ _ = _ |- _ =>
             apply PushCommit_keeps in H; destruct H as (_ & _ & H);
             apply quiet_titledTest in H
         | H : RaisePR _ _ _ _ _ _ _ = _ |- _ =>
             apply RaisePR_calls in H; destruct H as (_ & _ & ? & ->)
         | H : WaitForPR _ _ _ _ = _ |- _ =>
             apply WaitForPR_keeps in H; destruct H as (_ & _ & H);
             apply quiet_titledTest in H
         | H : MergePR _ _ _ = _ |- _ =>
             apply MergePR_tracks in H; destruct H as (_ & _ & _ & _ & _ & H)
         | H : WaitForMergeCommit _ _ _ _ = _ |- _ =>
             apply WaitForMergeCommit_keeps in H; destruct H as (_ & _ & H);
             apply quiet_titledTest in H
         | H : Close _ _ _ = _ |- _ =>
             apply Close_keeps in H; destruct H as (_ & _ & H);
             apply quiet_titledTest in H
         end.
  all: repeat (apply Forall_cons;
               [split;
                [cbn [calls]; first [assumption|reflexivity]
                |cbn [method]; intro Hm; try discriminate Hm;
                 eexists _, _, _, _; reflexivity]
               |]).
  all: apply Forall_nil.
Qed.

(** ** The merge commit *)



Section MergeCommit.
Variable W : Type.
Variable B : Backend W.





End MergeCommit.



(* ================================================================= *)
(** * Further properties of the package *)

(** ** Clone *)

(** X1.  [Clone] first opens [.git] inside the object's filesystem; when
    that fails it returns the error, clones nothing and leaves the object as
    it was.  Otherwise it makes one clone, of depth 1, from the GitHub URL of
    [owner/repo], with the stored credentials, and stores the repository
    handle the clone returned, also when it returns the clone's error. *)
Theorem Clone_shallow (W : Type) (B : Backend W) (s s' : St W)
        (r : Outcome unit) (l : list Call) :
  Clone W B s = (r, s', l) ->
  (exists e,
      l = [CChroot (filesystem (obj s)) ".git" (Err e)]
      /\ r = Fail e /\ obj s' = obj s)
  \/ (exists storage handle err,
         l = [CChroot (filesystem (obj s)) ".git" (Ok storage);
              CClone storage (filesystem (obj s))
                     {| clone_Depth := 1;
                        clone_URL :=
                          fmt_Sprintf0 B ("https://github.com/"
                                            ++ owner (obj s) ++ "/"
                                            ++ repo (obj s))%string;
                        clone_Auth := auth (obj s) |}
                     (handle, err)]
         /\ obj s' = set_gitRepo (obj s) handle
         /\ r = match err with Some e => Fail e | None => Ret tt end).
Proof.
  destruct s as [g w]. intro Hrun.
  unfold Clone in Hrun. go_unfold_in Hrun. cbn [obj world] in Hrun.
  split_on_answers Hrun.
  all: injection Hrun as <- <- <-.
  all: first [ left; eexists; repeat split; reflexivity
             | right; eexists _, _, _; repeat split; reflexivity ].
Qed.

(** The theorem on a clone that succeeds. *)
Lemma Clone_shallow_witness :
  Clone nat (scripted happy) (Build_St octocat 0)
  = (Ret tt, Build_St cloned 0,
     [CChroot "repo_123" ".git" (Ok "repo_123");
      CClone "repo_123" "repo_123"
             {| clone_Depth := 1;
                clone_URL := "https://github.com/octocat/Hello-World";
                clone_Auth := auth octocat |} (Some 1, None)]).
Proof.
  destruct (Clone nat (scripted happy) (Build_St octocat 0))
    as [[r s'] l] eqn:Hrun.
  destruct (Clone_shallow nat (scripted happy) _ _ _ _ Hrun)
    as [(e & Hl & _)|(st & h & err & Hl & Hobj & Hr)];
    vm_compute in Hrun; injection Hrun as <- <- <-; reflexivity.
Defined.

(** ** PushCommit *)

(** X2.  An error returned by [PushCommit] is the error returned by the last
    call it made, and that call is not the checkout; conversely a call
    other than the checkout that returns an error is the last call of the
    run, and its error is what [PushCommit] returns. *)
Theorem PushCommit_error_is_last_call (W : Type) (B : Backend W)
        (branchName : string) (fn : UpdateFunc W) (s s' : St W)
        (r : Outcome unit) (l : list Call) :
  PushCommit W B branchName fn s = (r, s', l) ->
  (forall e, r = Fail e ->
             exists pre c, l = pre ++ [c]
                           /\ errorOf c = Some e /\ isCheckout c = false)
  /\ (forall c e, In c l -> errorOf c = Some e -> isCheckout c = false ->
                  r = Fail e /\ last l c = c).
Proof.
  destruct s as [g0 w]. intro Hrun.
  unfold PushCommit in Hrun. go_unfold_in Hrun. cbn [obj world] in Hrun.
  split_on_answers Hrun.
  all: injection Hrun as <- <- <-.
  all: split.
  all: try (intros xe [= <-];
            match goal with
            | |- exists pre c, ?L = _ /\ _ =>
                let p := split_last_call L in
                lazymatch p with
                | (?d, ?x) => exists d, x
                end
            end; repeat split; reflexivity).
  all: try (intros xe He; discriminate He).
  all: intros xc xe Hin Herr Hck.
  all: split_membership Hin.
  all: subst xc; cbn in Herr, Hck; try discriminate.
  all: injection Herr as <-; split; reflexivity.
Qed.

(** The theorem on a push the remote rejects. *)
Lemma PushCommit_error_is_last_call_witness :
  exists pre c,
    snd (PushCommit nat pushRejected "feature" bump (Build_St cloned 0))
    = pre ++ [c]
    /\ errorOf c = Some "authentication required"
    /\ isCheckout c = false.
Proof.
  destruct (PushCommit nat pushRejected "feature" bump (Build_St cloned 0))
    as [[r s'] l] eqn:Hrun.
  assert (Hr : r = Fail "authentication required").
  { vm_compute in Hrun. injection Hrun as <- _ _. reflexivity. }
  destruct (PushCommit_error_is_last_call nat pushRejected "feature" bump
              _ _ _ _ Hrun) as (Hlast & _).
  exact (Hlast _ Hr).
Defined.

(** X3.  [PushCommit] pushes only after a commit that succeeded, for the
    repository of the object and with its stored credentials, and the push
    is the last call of the run; [PushCommit] returns [nil] only when the
    push was made and succeeded. *)
Theorem PushCommit_push_after_commit (W : Type) (B : Backend W)
        (branchName : string) (fn : UpdateFunc W) (s s' : St W)
        (r : Outcome unit) (l : list Call) :
  PushCommit W B branchName fn s = (r, s', l) ->
  (forall g a res,
      In (CPush g a res) l ->
      (exists wt msg author h, In (CCommit wt msg author (Ok h)) l)
      /\ gitRepo (obj s) = Some g /\ a = auth (obj s)
      /\ last l (CPush g a res) = CPush g a res)
  /\ (r = Ret tt -> exists g a, In (CPush g a None) l).
Proof.
  destruct s as [g0 w]. intro Hrun.
  unfold PushCommit in Hrun. go_unfold_in Hrun. cbn [obj world] in Hrun.
  split_on_answers Hrun.
  all: injection Hrun as <- <- <-.
  all: split.
  all: match goal with
       | |- _ = Ret tt -> _ =>
           intro Hr; first [discriminate Hr | eexists _, _; find_in]
       | |- _ =>
           intros xg xa xres Hin; split_membership Hin;
           injection Hin as <- <- <-;
           (split; [eexists _, _, _, _; find_in|]);
           cbn [obj]; repeat split; first [assumption|reflexivity]
       end.
Qed.

(** The theorem on a run in which everything succeeds. *)
Lemma PushCommit_push_after_commit_witness :
  exists g a,
    In (CPush g a None)
       (snd (PushCommit nat (scripted happy) "feature" bump
                        (Build_St cloned 0))).
Proof.
  destruct (PushCommit nat (scripted happy) "feature" bump (Build_St cloned 0))
    as [[r s'] l] eqn:Hrun.
  assert (Hr : r = Ret tt).
  { vm_compute in Hrun. injection Hrun as <- _ _. reflexivity. }
  destruct (PushCommit_push_after_commit nat (scripted happy) "feature" bump
              _ _ _ _ Hrun) as (_ & Hpush).
  exact (Hpush Hr).
Defined.



(** X5.  When the callback returns neither an error nor an author,
    [PushCommit] panics on reading the author's timestamp: nothing is
    committed and nothing is pushed. *)
Theorem PushCommit_nil_author (W : Type) (B : Backend W)
        (branchName : string) (fn : UpdateFunc W) (s s' : St W)
        (r : Outcome unit) (l : list Call) (wt : Worktree) (msg : string) :
  PushCommit W B branchName fn s = (r, s', l) ->
  In (CUpdateFunc wt (msg, None, None)) l ->
  r = Panicked
  /\ last l (CUpdateFunc wt (msg, None, None)) = CUpdateFunc wt (msg, None, None)
  /\ existsb isCommit l = false /\ existsb isPush l = false.
Proof.
  destruct s as [g0 w]. intros Hrun Hin.
  unfold PushCommit in Hrun. go_unfold_in Hrun. cbn [obj world] in Hrun.
  split_on_answers Hrun.
  all: injection Hrun as <- <- <-.
  all: split_membership Hin.
  all: injection Hin as <- <-.
  all: repeat split; reflexivity.
Qed.

(** The theorem on a callback that names no author. *)
Lemma PushCommit_nil_author_witness :
  fst (fst (PushCommit nat (scripted happy) "feature" anonymous
                       (Build_St cloned 0))) = Panicked.
Proof.
  destruct (PushCommit nat (scripted happy) "feature" anonymous
                       (Build_St cloned 0)) as [[r s'] l] eqn:Hrun.
  refine (proj1 (PushCommit_nil_author nat (scripted happy) "feature"
                   anonymous _ _ _ _ 1 "bump" Hrun _)).
  vm_compute in Hrun. injection Hrun as _ _ <-.
  do 4 right. left. reflexivity.
Defined.

(** ** RaisePR and MergePR *)

(** X6.  [RaisePR] makes one request.  When it returns [nil] the request
    succeeded with a pull request that has a number, and the object differs
    from before in its field [pr] alone, now that number.  When it returns
    an error, that is the error of the request; when the answer has no
    number it panics.  In both cases the object is as before. *)
Theorem RaisePR_records_number (W : Type) (B : Backend W)
        (sourceBranch targetBranch title body : string) (s s' : St W)
        (r : Outcome unit) (l : list Call) :
  RaisePR W B sourceBranch targetBranch title body s = (r, s', l) ->
  exists res,
    l = [CPRCreate (gitHubClient (obj s)) (owner (obj s)) (repo (obj s))
                   {| newpr_Title := title; newpr_Head := sourceBranch;
                      newpr_Base := targetBranch; newpr_Body := body |} res]
    /\ match res with
       | Err e => r = Fail e /\ obj s' = obj s
       | Ok p =>
           match pr_Number p with
           | Some n => r = Ret tt /\ obj s' = set_pr (obj s) n
           | None => r = Panicked /\ obj s' = obj s
           end
       end.
Proof.
  destruct s as [g w]. intro Hrun.
  unfold RaisePR in Hrun. go_unfold_in Hrun. cbn [obj world] in Hrun.
  split_on_answers Hrun.
  all: injection Hrun as <- <- <-.
  all: eexists; split; [reflexivity|].
  all: cbv beta iota.
  all: repeat match goal with
         | H : pr_Number _ = _ |- _ => rewrite H
         end.
  all: split; reflexivity.
Qed.

(** The theorem on a request that succeeds with pull request number 7. *)
Lemma RaisePR_records_number_witness :
  pr (obj (snd (fst (RaisePR nat (scripted happy) "feature" "master" "t" "b"
                             (Build_St cloned 0))))) = 7%Z.
Proof.
  destruct (RaisePR nat (scripted happy) "feature" "master" "t" "b"
                    (Build_St cloned 0)) as [[r s'] l] eqn:Hrun.
  destruct (RaisePR_records_number nat (scripted happy) _ _ _ _ _ _ _ _ Hrun)
    as (res & Hl & Hres).
  assert (Hok : res = Ok openPR).
  { vm_compute in Hrun. injection Hrun as _ _ <-. injection Hl as <-.
    reflexivity. }
  subst res. cbn in Hres. destruct Hres as (_ & Hobj).
  cbn [fst snd]. rewrite Hobj. reflexivity.
Defined.

(** X7.  A merge request made by [MergePR] is for the number of the pull
    request it has just fetched, found mergeable, with an empty commit
    message and the merge method ["merge"], on the object's client, owner
    and repository; it is the last call of the run, and an error it returns
    is what [MergePR] returns.  When the fetch fails, its error is returned
    and the fetch is the only call. *)
Theorem MergePR_merge_request (W : Type) (B : Backend W) (s s' : St W)
        (r : Outcome unit) (l : list Call) :
  MergePR W B s = (r, s', l) ->
  (forall c o rp n msg meth res,
      In (CPRMerge c o rp n msg meth res) l ->
      c = gitHubClient (obj s) /\ o = owner (obj s) /\ rp = repo (obj s)
      /\ msg = "" /\ meth = "merge"
      /\ (exists p,
             l = [CPRGet c o rp (pr (obj s)) (Ok p);
                  CPRMerge c o rp n msg meth res]
             /\ pr_Number p = Some n /\ pr_Mergeable p = Some true)
      /\ (forall e, res = Err e -> r = Fail e /\ obj s' = obj s))
  /\ (forall c o rp n e,
         In (CPRGet c o rp n (Err e)) l ->
         r = Fail e /\ l = [CPRGet c o rp n (Err e)] /\ obj s' = obj s).
Proof.
  destruct s as [g w]. intro Hrun.
  unfold MergePR in Hrun. go_unfold_in Hrun. cbn [obj world] in Hrun.
  split_on_answers Hrun.
  all: injection Hrun as <- <- <-.
  all: split.
  all: match goal with
       | |- forall c o rp n e, In (CPRGet _ _ _ _ (Err _)) _ -> _ =>
           intros xc xo xrp xn xe Hin; split_membership Hin;
           injection Hin as <- <- <- <- <-; repeat split
       | |- _ =>
           intros xc xo xrp xn xmsg xmeth xres Hin; split_membership Hin;
           injection Hin as <- <- <- <- <- <- <-;
           repeat split;
           try (eexists; repeat split; first [reflexivity|assumption]);
           try (intros xe He; first [discriminate He
                                    |injection He as <-; split; reflexivity]);
           try (intros xe He; discriminate He)
       end.
  all: match goal with
       | H : _ = Err _ |- _ =>
           first [discriminate H | injection H as <-; reflexivity]
       end.
Qed.

(** The theorem on a merge the API refuses. *)
Lemma MergePR_merge_request_witness :
  fst (fst (MergePR nat (scripted mergeRefused) (Build_St cloned 0)))
  = Fail "405 Pull Request is not mergeable".
Proof.
  destruct (MergePR nat (scripted mergeRefused) (Build_St cloned 0))
    as [[r s'] l] eqn:Hrun.
  destruct (MergePR_merge_request nat (scripted mergeRefused) _ _ _ _ Hrun)
    as (Hmerge & _).
  cbn [fst].
  refine (proj1 (proj2 (proj2 (proj2 (proj2 (proj2 (proj2
            (Hmerge tokenClient "octocat" "Hello-World" 7%Z "" "merge"
                    (Err "405 Pull Request is not mergeable") _)))))) _
            eq_refl)).
  vm_compute in Hrun. injection Hrun as _ _ <-. right. left. reflexivity.
Defined.

(** ** The status wait, continued *)

Lemma selectResult_cases (tie : bool) (t : Duration) (v : Outcome unit) :
  selectResult tie t v = Fail statusTimeoutError
  \/ ((t <= waitDeadline)%N /\ selectResult tie t v = v).
Proof.
  unfold selectResult.
  destruct (N.ltb_spec t waitDeadline); [right; split; [lia|reflexivity]|].
  destruct (N.eqb_spec t waitDeadline); [|left; reflexivity].
  destruct tie; [right; split; [lia|reflexivity]|left; reflexivity].
Qed.

(** What a verdict of the scan says about the page. *)
Lemma scanPage_verdict (ctx : string) (statuses : option (list RepoStatus))
      (v : Outcome unit) :
  scanPage ctx statuses = Some v ->
  exists page st,
    statuses = Some page /\ In st page /\ GetContext st = ctx
    /\ ((GetState st = "success" /\ v = Ret tt)
        \/ ((GetState st = "failure" \/ GetState st = "error")
            /\ v = Fail statusFailedError)).
Proof.
  destruct statuses as [page|]; [|discriminate]. cbn [scanPage].
  rewrite scanStatuses_find.
  destruct (find (decides ctx) page) as [st|] eqn:Hfind; [|discriminate].
  intros [= <-]. apply find_some in Hfind. destruct Hfind as (Hin & Hd).
  exists page, st. split; [reflexivity|]. split; [exact Hin|].
  unfold decides, matchesContext, isTerminal in Hd.
  apply andb_true_iff in Hd as [Hc Ht]. apply String.eqb_eq in Hc.
  split; [exact Hc|]. unfold verdictOf.
  destruct (String.eqb_spec (GetState st) "success") as [Hs|Hs].
  - left. split; [exact Hs|reflexivity].
  - right. split; [|reflexivity]. cbn [orb] in Ht.
    apply orb_true_iff in Ht as [Ht|Ht]; apply String.eqb_eq in Ht; auto.
Qed.

Section StatusRequests.
Variable W : Type.
Variable B : Backend W.
Variables (c : Client) (shaRef owner repo statusContext : string).

(** The requests of the loop: their parameters, when they are issued and
    how many they can be. *)
Lemma pollLoop_requests (fuel : nat) :
  forall (elapsed : Duration) (w w' : W) (r : Outcome unit) (l : list Call),
    pollLoop W B fuel c shaRef owner repo statusContext elapsed w = (r, w', l) ->
    Forall (fun ev =>
              exists t res,
                ev = CListStatuses c owner repo shaRef 20%Z t res
                /\ (elapsed + pollInterval <= t)%N /\ (t < waitDeadline)%N) l
    /\ (l = [] \/ (elapsed + N.of_nat (length l) * pollInterval
                   < waitDeadline)%N).
Proof.
  induction fuel as [|fuel IH]; intros elapsed w w' r l Hrun;
    cbn [pollLoop] in Hrun.
  - injection Hrun as _ _ <-. split; [constructor|left; reflexivity].
  - destruct (N.leb_spec waitDeadline (elapsed + pollInterval)) as [Hd|Hd].
    { injection Hrun as _ _ <-. split; [constructor|left; reflexivity]. }
    destruct (repos_ListStatuses B c owner repo shaRef 20%Z w)
      as [[resp took] w1].
    cbn [fst snd] in Hrun.
    assert (Hone : forall v w2,
               (v, w2, [CListStatuses c owner repo shaRef 20%Z
                                      (elapsed + pollInterval)%N (resp, took)])
               = (r, w', l) ->
               Forall (fun ev =>
                         exists t res,
                           ev = CListStatuses c owner repo shaRef 20%Z t res
                           /\ (elapsed + pollInterval <= t)%N
                           /\ (t < waitDeadline)%N) l
               /\ (l = [] \/ (elapsed + N.of_nat (length l) * pollInterval
                              < waitDeadline)%N)).
    { intros v w2 [= _ _ <-]. split.
      - constructor; [|constructor]. eexists _, _.
        split; [reflexivity|]. split; [lia|exact Hd].
      - right. cbn [length]. lia. }
    destruct resp as [statuses|err]; [|exact (Hone _ _ Hrun)].
    destruct (scanPage statusContext statuses); [exact (Hone _ _ Hrun)|].
    destruct (pollLoop W B fuel c shaRef owner repo statusContext
                       (elapsed + pollInterval + took)%N w1)
      as [[r2 w2] l2] eqn:Hrec.
    injection Hrun as _ _ <-.
    destruct (IH _ _ _ _ _ Hrec) as (Hall & Hlen). split.
    + constructor.
      * eexists _, _. split; [reflexivity|]. split; [lia|exact Hd].
      * eapply Forall_impl; [|exact Hall].
        intros ev (t & res & -> & Hlo & Hhi). eexists _, _.
        split; [reflexivity|]. split; [|exact Hhi].
        change pollInterval with 2000000000%N in *. lia.
    + right. cbn [length]. change pollInterval with 2000000000%N in *.
      destruct Hlen as [->|Hlen]; cbn [length]; lia.
Qed.

(** How the loop can end: in the timeout, or on the answer to its last
    request, which arrived by the deadline. *)
Lemma pollLoop_outcome (fuel : nat) :
  forall (elapsed : Duration) (w w' : W) (r : Outcome unit) (l : list Call),
    pollLoop W B fuel c shaRef owner repo statusContext elapsed w = (r, w', l) ->
    r = Fail statusTimeoutError
    \/ exists pre t resp took,
        l = pre ++ [CListStatuses c owner repo shaRef 20%Z t (resp, took)]
        /\ (t + took <= waitDeadline)%N
        /\ match resp with
           | Err e => r = Fail e
           | Ok statuses => scanPage statusContext statuses = Some r
           end.
Proof.
  induction fuel as [|fuel IH]; intros elapsed w w' r l Hrun;
    cbn [pollLoop] in Hrun.
  - injection Hrun as <- _ _. left. reflexivity.
  - destruct (N.leb_spec waitDeadline (elapsed + pollInterval)) as [Hd|Hd].
    { injection Hrun as <- _ _. left. reflexivity. }
    destruct (repos_ListStatuses B c owner repo shaRef 20%Z w)
      as [[resp took] w1].
    cbn [fst snd] in Hrun.
    destruct resp as [statuses|err].
    + destruct (scanPage statusContext statuses) as [v|] eqn:Hscan.
      * injection Hrun as <- _ <-.
        destruct (selectResult_cases (select_tie B)
                                     (elapsed + pollInterval + took)%N v)
          as [Ht|(Hin & Hv)]; [left; exact Ht|].
        right. exists [], (elapsed + pollInterval)%N, (Ok statuses), took.
        split; [reflexivity|]. split; [exact Hin|]. rewrite Hv. exact Hscan.
      * destruct (pollLoop W B fuel c shaRef owner repo statusContext
                           (elapsed + pollInterval + took)%N w1)
          as [[r2 w2] l2] eqn:Hrec.
        injection Hrun as <- _ <-.
        destruct (IH _ _ _ _ _ Hrec)
          as [Ht|(pre & t & resp & took' & -> & Hin & Hres)];
          [left; exact Ht|].
        right. eexists (_ :: pre), t, resp, took'.
        split; [reflexivity|]. split; assumption.
    + injection Hrun as <- _ <-.
      destruct (selectResult_cases (select_tie B)
                                   (elapsed + pollInterval + took)%N
                                   (Fail err))
        as [Ht|(Hin & Hv)]; [left; exact Ht|].
      right. exists [], (elapsed + pollInterval)%N, (Err err), took.
      split; [reflexivity|]. split; [exact Hin|]. exact Hv.
Qed.

End StatusRequests.

Lemma waitForStatus_requests (W : Type) (B : Backend W)
      (shaRef owner repo statusContext : string) (s s' : St W)
      (r : Outcome unit) (l : list Call) :
  waitForStatus W B shaRef owner repo statusContext s = (r, s', l) ->
  obj s' = obj s
  /\ (exists l1,
         l = CPrint ("Waiting for " ++ shaRef ++ " to become mergeable"
                                    ++ newline)%string :: l1
         /\ Forall (fun ev =>
                      exists t res,
                        ev = CListStatuses (gitHubClient (obj s)) owner repo
                                           shaRef 20%Z t res
                        /\ (pollInterval <= t)%N /\ (t < waitDeadline)%N) l1
         /\ length l1 <= 1799).
Proof.
  rewrite waitForStatus_eq.
  destruct (pollLoop W B pollFuel (gitHubClient (obj s)) shaRef owner repo
                     statusContext 0%N (world s)) as [[r1 w1] l1] eqn:Hloop.
  intros [= <- <- <-]. split; [reflexivity|]. exists l1.
  split; [reflexivity|].
  destruct (pollLoop_requests W B _ _ _ _ _ _ _ _ _ _ _ Hloop) as (Hall & Hlen).
  split; [exact Hall|].
  destruct Hlen as [->|Hlen]; [cbn [length]; lia|].
  change pollInterval with 2000000000%N in Hlen.
  change waitDeadline with 3600000000000%N in Hlen. lia.
Qed.



(** X10.  A status wait never panics and leaves the object as it was.  It
    returns [nil] only when the answer to its last request arrived by the
    deadline with an entry of the requested name in state [success]; an
    error it returns is the timeout error, or the answer to its last
    request arrived by the deadline and either was that transport error or
    held an entry of the requested name in state [failure] or [error], the
    error then being the failed-check error. *)
Theorem waitForStatus_outcomes (W : Type) (B : Backend W)
        (shaRef owner repo statusContext : string) (s s' : St W)
        (r : Outcome unit) (l : list Call) :
  waitForStatus W B shaRef owner repo statusContext s = (r, s', l) ->
  obj s' = obj s
  /\ (r = Fail statusTimeoutError
      \/ exists pre t resp took,
          l = pre ++ [CListStatuses (gitHubClient (obj s)) owner repo shaRef
                                    20%Z t (resp, took)]
          /\ (t + took <= waitDeadline)%N
          /\ match resp with
             | Err e => r = Fail e
             | Ok statuses =>
                 exists page st,
                   statuses = Some page /\ In st page
                   /\ GetContext st = statusContext
                   /\ ((GetState st = "success" /\ r = Ret tt)
                       \/ ((GetState st = "failure" \/ GetState st = "error")
                           /\ r = Fail statusFailedError))
             end).
Proof.
  rewrite waitForStatus_eq.
  destruct (pollLoop W B pollFuel (gitHubClient (obj s)) shaRef owner repo
                     statusContext 0%N (world s)) as [[r1 w1] l1] eqn:Hloop.
  intros [= <- <- <-]. split; [reflexivity|].
  destruct (pollLoop_outcome W B _ _ _ _ _ _ _ _ _ _ _ Hloop)
    as [Ht|(pre & t & resp & took & -> & Hin & Hres)]; [left; exact Ht|].
  right. eexists (_ :: pre), t, resp, took.
  split; [reflexivity|]. split; [exact Hin|].
  destruct resp as [statuses|e]; [|exact Hres].
  exact (scanPage_verdict _ _ _ Hres).
Qed.

(** The theorem on a check that is green at the second poll. *)
Lemma waitForStatus_outcomes_witness :
  obj (snd (fst (waitForStatus nat (scripted happy) "headsha" "octocat"
                               "Hello-World" "ci" (Build_St octocat 0))))
  = octocat.
Proof.
  destruct (waitForStatus nat (scripted happy) "headsha" "octocat"
                          "Hello-World" "ci" (Build_St octocat 0))
    as [[r s'] l] eqn:Hrun.
  exact (proj1 (waitForStatus_outcomes nat (scripted happy) _ _ _ _ _ _ _ _
                  Hrun)).
Defined.

(** X8.  [WaitForPR] leaves the object as it was.  When fetching the pull
    request fails it returns that error, and the fetch is its only call:
    nothing is printed and no status is requested.  Every status request it
    makes is for the head commit of the pull request it fetched under the
    number stored in the object, with the object's client, owner and
    repository, 20 entries a page. *)
Theorem WaitForPR_polls_head (W : Type) (B : Backend W)
        (statusContext : string) (s s' : St W)
        (r : Outcome unit) (l : list Call) :
  WaitForPR W B statusContext s = (r, s', l) ->
  obj s' = obj s
  /\ (forall c o rp n e,
         In (CPRGet c o rp n (Err e)) l ->
         r = Fail e /\ l = [CPRGet c o rp n (Err e)])
  /\ (forall ev, In ev l -> isStatusRequest ev = true ->
                 exists p head sha t res,
                   In (CPRGet (gitHubClient (obj s)) (owner (obj s))
                              (repo (obj s)) (pr (obj s)) (Ok p)) l
                   /\ pr_Head p = Some head /\ branch_SHA head = Some sha
                   /\ ev = CListStatuses (gitHubClient (obj s)) (owner (obj s))
                                         (repo (obj s)) sha 20%Z t res).
Proof.
  destruct s as [g w]. intro Hrun.
  unfold WaitForPR in Hrun. go_unfold_in Hrun. cbn [obj world] in Hrun.
  split_on_answers Hrun.
  all: injection Hrun as <- <- <-.
  all: try match goal with
           | H : waitForStatus _ _ _ _ _ _ _ = _ |- _ =>
               apply waitForStatus_requests in H;
               destruct H as (Hobj & l1 & -> & Hall & _);
               cbn [obj] in Hobj, Hall
           end.
  all: split; [first [reflexivity|assumption]|]; split.
  all: match goal with
       | |- forall c o rp n e, In (CPRGet _ _ _ _ (Err _)) _ -> _ =>
           intros xc xo xrp xn xe Hin; cbn [app In] in Hin
       | |- _ => intros ev Hin Hreq; cbn [app In] in Hin
       end.
  all: repeat match goal with
         | D : _ \/ _ |- _ => destruct D as [D|D]
         end.
  all: try discriminate; try contradiction.
  all: try (subst ev; discriminate Hreq).
  all: try (injection Hin as <- <- <- <- <-; split; reflexivity).
  - destruct (proj1 (Forall_forall _ _) Hall _ Hin) as (t & res & E & _).
    discriminate E.
  - destruct (proj1 (Forall_forall _ _) Hall _ Hin) as (t & res & -> & _).
    eexists _, _, _, t, res. split; [left; reflexivity|].
    repeat split; eassumption.
Qed.

(** The theorem on a pull request that cannot be fetched. *)
Lemma WaitForPR_polls_head_witness :
  WaitForPR nat (scripted unreachable) "ci" (Build_St cloned 0)
  = (Fail "404 Not Found", Build_St cloned 0,
     [CPRGet tokenClient "octocat" "Hello-World" 0 (Err "404 Not Found")]).
Proof.
  destruct (WaitForPR nat (scripted unreachable) "ci" (Build_St cloned 0))
    as [[r s'] l] eqn:Hrun.
  destruct (WaitForPR_polls_head nat (scripted unreachable) _ _ _ _ _ Hrun)
    as (Hobj & Hfetch & _).
  assert (Hin : In (CPRGet tokenClient "octocat" "Hello-World" 0
                           (Err "404 Not Found")) l).
  { vm_compute in Hrun. injection Hrun as _ _ <-. left. reflexivity. }
  destruct (Hfetch _ _ _ _ _ Hin) as (-> & ->).
  destruct s' as [g' w']. cbn [obj] in Hobj. subst g'.
  vm_compute in Hrun. injection Hrun as <-. reflexivity.
Defined.

(** ** What each method calls *)

Lemma waitForStatus_allowed (W : Type) (B : Backend W) (m : Method)
      (shaRef owner repo statusContext : string) (s s' : St W)
      (r : Outcome unit) (l : list Call) :
  m = MWaitForPR \/ m = MWaitForMergeCommit ->
  waitForStatus W B shaRef owner repo statusContext s = (r, s', l) ->
  forallb (allowed m) l = true.
Proof.
  intros Hm Hrun.
  destruct (waitForStatus_requests W B _ _ _ _ _ _ _ _ Hrun)
    as (_ & l1 & -> & Hall & _).
  apply forallb_forall. intros ev [<-|Hin].
  - destruct Hm as [-> | ->]; reflexivity.
  - destruct (proj1 (Forall_forall _ _) Hall ev Hin) as (t & res & -> & _).
    destruct Hm as [-> | ->]; reflexivity.
Qed.

Lemma runMethod_allowed (W : Type) (B : Backend W) (m : Method)
      (branchName targetBranch title body statusContext : string)
      (fn : UpdateFunc W) (s s' : St W) (r : Outcome unit) (l : list Call) :
  runMethod B m branchName targetBranch title body statusContext fn s
  = (r, s', l) ->
  forallb (allowed m) l = true.
Proof.
  destruct s as [g w]. intro Hrun. destruct m; cbn [runMethod] in Hrun.
  - unfold Clone in Hrun. go_unfold_in Hrun. cbn [obj world] in Hrun.
    split_on_answers Hrun. all: injection Hrun as <- <- <-; reflexivity.
  - unfold PushCommit in Hrun. go_unfold_in Hrun. cbn [obj world] in Hrun.
    split_on_answers Hrun. all: injection Hrun as <- <- <-; reflexivity.
  - unfold RaisePR in Hrun. go_unfold_in Hrun. cbn [obj world] in Hrun.
    split_on_answers Hrun. all: injection Hrun as <- <- <-; reflexivity.
  - unfold WaitForPR in Hrun. go_unfold_in Hrun. cbn [obj world] in Hrun.
    split_on_answers Hrun. all: injection Hrun as <- <- <-; try reflexivity.
    match goal with
    | H : waitForStatus _ _ _ _ _ _ _ = _ |- _ =>
        apply (waitForStatus_allowed W B MWaitForPR) in H; [|left; reflexivity]
    end.
    cbn [app forallb allowed andb]. assumption.
  - unfold MergePR in Hrun. go_unfold_in Hrun. cbn [obj world] in Hrun.
    split_on_answers Hrun. all: injection Hrun as <- <- <-; reflexivity.
  - unfold WaitForMergeCommit in Hrun. go_unfold_in Hrun.
    cbn [obj world] in Hrun. split_on_answers Hrun.
    injection Hrun as <- <- <-.
    match goal with
    | H : waitForStatus _ _ _ _ _ _ _ = _ |- _ =>
        apply (waitForStatus_allowed W B MWaitForMergeCommit) in H;
          [|right; reflexivity]
    end.
    cbn [app]. assumption.
  - unfold Close in Hrun. go_unfold_in Hrun. cbn [obj world] in Hrun.
    split_on_answers Hrun. all: injection Hrun as <- <- <-; reflexivity.
Qed.

(** Turns the equations of the steps of [Create] into what each step was
    allowed to call. *)
Ltac learn_allowed W B :=
  repeat match goal with
    | H : Clone _ _ _ = _ |- _ =>
        apply (runMethod_allowed W B MClone "" "" "" "" "" (fun _ w => (("", None, None), w))) in H
    | H : PushCommit _ _ ?b ?f _ = _ |- _ =>
        apply (runMethod_allowed W B MPushCommit b "" "" "" "" f) in H
    | H : RaisePR _ _ ?b ?t ?ti ?bo _ = _ |- _ =>
        apply (runMethod_allowed W B MRaisePR b t ti bo ""
                                 (fun _ w => (("", None, None), w))) in H
    | H : WaitForPR _ _ ?c _ = _ |- _ =>
        apply (runMethod_allowed W B MWaitForPR "" "" "" "" c
                                 (fun _ w => (("", None, None), w))) in H
    | H : MergePR _ _ _ = _ |- _ =>
        apply (runMethod_allowed W B MMergePR "" "" "" "" ""
                                 (fun _ w => (("", None, None), w))) in H
    | H : WaitForMergeCommit _ _ ?c _ = _ |- _ =>
        apply (runMethod_allowed W B MWaitForMergeCommit "" "" "" "" c
                                 (fun _ w => (("", None, None), w))) in H
    | H : Close _ _ _ = _ |- _ =>
        apply (runMethod_allowed W B MClose "" "" "" "" ""
                                 (fun _ w => (("", None, None), w))) in H
    end.

(** X12.  Each method calls only its own collaborators: [Clone] the
    filesystem's chroot and the clone; [PushCommit] the repository, the
    worktree, the callback and the clock; [RaisePR] the creation of a pull
    request; [WaitForPR] the fetch of the pull request, the status list and
    standard output; [MergePR] the fetch and the merge;
    [WaitForMergeCommit] the status list and standard output; [Close] the
    removal of a directory.  The same holds of each method invocation in a
    run of [Create]. *)
Theorem method_footprint (W : Type) (B : Backend W)
        (branchName targetBranch title body prStatusContext
         masterStatusContext : string) (fn : UpdateFunc W) (s : St W) :
  (forall m,
      forallb (allowed m)
              (snd (runMethod B m branchName targetBranch title body
                              prStatusContext fn s)) = true)
  /\ Forall (fun mc => forallb (allowed (method mc)) (calls mc) = true)
            (snd (Create W B branchName targetBranch prStatusContext
                         masterStatusContext fn s)).
Proof.
  split.
  - intro m.
    destruct (runMethod B m branchName targetBranch title body prStatusContext
                        fn s) as [[r s'] l] eqn:Hrun.
    exact (runMethod_allowed W B _ _ _ _ _ _ _ _ _ _ _ Hrun).
  - destruct (Create W B branchName targetBranch prStatusContext
                     masterStatusContext fn s) as [[r s'] l] eqn:Hrun.
    cbn [snd]. create_cases Hrun.
    all: learn_allowed W B.
    all: repeat (apply Forall_cons; [cbn [method calls]; assumption|]).
    all: apply Forall_nil.
Qed.

(** ** The temporary directory *)

Lemma runMethod_path (W : Type) (B : Backend W) (m : Method)
      (branchName targetBranch title body statusContext : string)
      (fn : UpdateFunc W) (s s' : St W) (r : Outcome unit) (l : list Call) :
  runMethod B m branchName targetBranch title body statusContext fn s
  = (r, s', l) ->
  path (obj s') = path (obj s)
  /\ (forall p res, In (CRemoveAll p res) l -> p = path (obj s)).
Proof.
  intro Hrun. split.
  - destruct m; cbn [runMethod] in Hrun.
    + apply (Clone_keeps _ _ _ _ _ _ Hrun).
    + apply (PushCommit_keeps _ _ _ _ _ _ _ _ Hrun).
    + apply (RaisePR_calls _ _ _ _ _ _ _ _ _ _ Hrun).
    + apply (WaitForPR_keeps _ _ _ _ _ _ _ Hrun).
    + apply (MergePR_tracks _ _ _ _ _ _ Hrun).
    + apply (WaitForMergeCommit_keeps _ _ _ _ _ _ _ Hrun).
    + apply (Close_keeps _ _ _ _ _ _ Hrun).
  - intros p res Hin.
    pose proof (runMethod_allowed W B _ _ _ _ _ _ _ _ _ _ _ Hrun) as Hall.
    pose proof (proj1 (forallb_forall _ _) Hall _ Hin) as Hok.
    destruct m; try discriminate Hok.
    cbn [runMethod] in Hrun.
    destruct (Close_calls _ _ _ _ _ _ Hrun) as (res' & -> & _).
    destruct Hin as [[= <- _]|[]]. reflexivity.
Qed.

Ltac learn_paths W B :=
  repeat match goal with
    | H : Clone _ _ _ = _ |- _ =>
        apply (runMethod_path W B MClone "" "" "" "" "" (fun _ w => (("", None, None), w))) in H
    | H : PushCommit _ _ ?b ?f _ = _ |- _ =>
        apply (runMethod_path W B MPushCommit b "" "" "" "" f) in H
    | H : RaisePR _ _ ?b ?t ?ti ?bo _ = _ |- _ =>
        apply (runMethod_path W B MRaisePR b t ti bo ""
                              (fun _ w => (("", None, None), w))) in H
    | H : WaitForPR _ _ ?c _ = _ |- _ =>
        apply (runMethod_path W B MWaitForPR "" "" "" "" c
                              (fun _ w => (("", None, None), w))) in H
    | H : MergePR _ _ _ = _ |- _ =>
        apply (runMethod_path W B MMergePR "" "" "" "" ""
                              (fun _ w => (("", None, None), w))) in H
    | H : WaitForMergeCommit _ _ ?c _ = _ |- _ =>
        apply (runMethod_path W B MWaitForMergeCommit "" "" "" "" c
                              (fun _ w => (("", None, None), w))) in H
    | H : Close _ _ _ = _ |- _ =>
        apply (runMethod_path W B MClose "" "" "" "" ""
                              (fun _ w => (("", None, None), w))) in H
    end.

Lemma Create_path (W : Type) (B : Backend W)
      (branchName targetBranch prStatusContext masterStatusContext : string)
      (fn : UpdateFunc W) (s s' : St W) (r : Outcome unit)
      (l : list MethodCall) :
  Create W B branchName targetBranch prStatusContext masterStatusContext fn s
  = (r, s', l) ->
  path (obj s') = path (obj s)
  /\ (forall p res, In (CRemoveAll p res) (flatten l) -> p = path (obj s)).
Proof.
  intro Hrun. create_cases Hrun.
  all: learn_paths W B.
  all: repeat match goal with
         | H : _ /\ _ |- _ => destruct H
         end.
  all: split; [congruence|].
  all: intros p res Hin; unfold flatten in Hin;
    cbn [map concat calls] in Hin.
  all: repeat (apply in_app_or in Hin; destruct Hin as [Hin|Hin]).
  all: try contradiction.
  all: match goal with
       | H : forall p res, In (CRemoveAll p res) ?l -> _, K : In _ ?l |- _ =>
           rewrite (H _ _ K); congruence
       end.
Qed.

Lemma runOp_path (W : Type) (B : Backend W) (op : Op W) (s s' : St W)
      (r : Outcome unit) (l : list Call) :
  runOp B op s = (r, s', l) ->
  path (obj s') = path (obj s)
  /\ (forall p res, In (CRemoveAll p res) l -> p = path (obj s)).
Proof.
  destruct op; cbn [runOp]; intro Hrun.
  - exact (runMethod_path W B MClone "" "" "" "" ""
                          (fun _ w => (("", None, None), w)) _ _ _ _ Hrun).
  - exact (runMethod_path W B MPushCommit branchName "" "" "" "" fn _ _ _ _
                          Hrun).
  - exact (runMethod_path W B MRaisePR sourceBranch targetBranch title body ""
                          (fun _ w => (("", None, None), w)) _ _ _ _ Hrun).
  - exact (runMethod_path W B MWaitForPR "" "" "" "" statusContext
                          (fun _ w => (("", None, None), w)) _ _ _ _ Hrun).
  - exact (runMethod_path W B MMergePR "" "" "" "" ""
                          (fun _ w => (("", None, None), w)) _ _ _ _ Hrun).
  - exact (runMethod_path W B MWaitForMergeCommit "" "" "" "" statusContext
                          (fun _ w => (("", None, None), w)) _ _ _ _ Hrun).
  - exact (runMethod_path W B MClose "" "" "" "" ""
                          (fun _ w => (("", None, None), w)) _ _ _ _ Hrun).
  - destruct (Create W B branchName targetBranch prStatusContext
                     masterStatusContext fn s) as [[r1 s1] l1] eqn:Hc.
    injection Hrun as <- <- <-. exact (Create_path _ _ _ _ _ _ _ _ _ _ _ Hc).
Qed.

Lemma runOps_path (W : Type) (B : Backend W) (ops : list (Op W)) :
  forall (s s' : St W) (l : list Call),
    runOps B ops s = (s', l) ->
    path (obj s') = path (obj s)
    /\ (forall p res, In (CRemoveAll p res) l -> p = path (obj s)).
Proof.
  induction ops as [|op ops IH]; intros s s' l Hrun; cbn [runOps] in Hrun.
  - injection Hrun as <- <-. split; [reflexivity|intros p res []].
  - destruct (runOp B op s) as [[r s1] l1] eqn:Hop.
    apply runOp_path in Hop. destruct Hop as (Hp1 & Hr1).
    destruct (runOps B ops s1) as [s2 l2] eqn:Hrest.
    destruct (IH _ _ _ Hrest) as (Hp2 & Hr2).
    destruct r; injection Hrun as <- <-.
    + split; [congruence|]. intros p res Hin.
      apply in_app_or in Hin. destruct Hin as [Hin|Hin].
      * exact (Hr1 _ _ Hin).
      * rewrite (Hr2 _ _ Hin). exact Hp1.
    + split; [congruence|]. intros p res Hin.
      apply in_app_or in Hin. destruct Hin as [Hin|Hin].
      * exact (Hr1 _ _ Hin).
      * rewrite (Hr2 _ _ Hin). exact Hp1.
    + split; [exact Hp1|exact Hr1].
Qed.

(** X13.  An object made by [MakeGithubPR] has for [path] the temporary
    directory that construction created under ["."] with the prefix
    ["repo_"].  Whatever operations are then applied to it, in any order and
    whatever they return, [path] stays that directory and it is the only
    directory ever removed. *)
Theorem teardown_removes_created_dir (W : Type) (B : Backend W)
        (repoName : string) (creds : Credentials) (w w1 : W)
        (g : GithubPR) (l0 : list Call) :
  MakeGithubPR B repoName creds w = (Ret g, w1, l0) ->
  (exists fs',
      l0 = [CTempDir "." "." "repo_" (Ok (path g));
            CChroot "." (path g) (Ok fs')]
      /\ filesystem g = fs')
  /\ (forall (ops : list (Op W)) (s' : St W) (l : list Call),
         runOps B ops (Build_St g w1) = (s', l) ->
         path (obj s') = path g
         /\ (forall p res, In (CRemoveAll p res) l -> p = path g)).
Proof.
  intro Hmake. split.
  - unfold MakeGithubPR, makeGithubPR, regexp_MatchString in Hmake.
    go_unfold_in Hmake. split_on_answers Hmake.
    all: try discriminate Hmake.
    all: injection Hmake as <- <- <-.
    all: eexists; split; reflexivity.
  - intros ops s' l Hrun. exact (runOps_path W B ops _ _ _ Hrun).
Qed.

(** The theorem on an object made for ["octocat/Hello-World"], then cloned
    and closed twice. *)
Lemma teardown_removes_created_dir_witness :
  Forall (fun c => match c with
                   | CRemoveAll p _ => p = "repo_123"
                   | _ => True
                   end)
         (snd (runOps (scripted happy) [OClone; OClose; OClose]
                      (Build_St octocat 0))).
Proof.
  assert (Hmake : MakeGithubPR (scripted happy) "octocat/Hello-World" creds0 0
                  = (Ret octocat, 0,
                     [CTempDir "." "." "repo_" (Ok "repo_123");
                      CChroot "." "repo_123" (Ok "repo_123")]))
    by reflexivity.
  destruct (teardown_removes_created_dir nat (scripted happy) _ _ _ _ _ _ Hmake)
    as (_ & Hops).
  destruct (runOps (scripted happy) [OClone; OClose; OClose]
                   (Build_St octocat 0)) as [s' l] eqn:Hrun.
  cbn [snd]. apply Forall_forall. intros c Hin.
  destruct c; try exact I.
  exact (proj2 (Hops _ _ _ Hrun) _ _ Hin).
Defined.

(** ** How the steps of Create hand identifiers on *)

Lemma RaisePR_success (W : Type) (B : Backend W)
      (sourceBranch targetBranch title body : string) (s s' : St W)
      (l : list Call) :
  RaisePR W B sourceBranch targetBranch title body s = (Ret tt, s', l) ->
  exists c o rp new p n,
    l = [CPRCreate c o rp new (Ok p)]
    /\ pr_Number p = Some n /\ pr (obj s') = n.
Proof.
  destruct s as [g w]. intro Hrun.
  unfold RaisePR in Hrun. go_unfold_in Hrun. cbn [obj world] in Hrun.
  split_on_answers Hrun.
  all: try discriminate Hrun.
  injection Hrun as <- <-. eexists _, _, _, _, _, _.
  split; [reflexivity|]. split; [eassumption|reflexivity].
Qed.

Lemma WaitForPR_gets (W : Type) (B : Backend W) (statusContext : string)
      (s s' : St W) (r : Outcome unit) (l : list Call) :
  WaitForPR W B statusContext s = (r, s', l) ->
  obj s' = obj s
  /\ (forall c o rp n res, In (CPRGet c o rp n res) l -> n = pr (obj s)).
Proof.
  destruct s as [g w]. intro Hrun.
  unfold WaitForPR in Hrun. go_unfold_in Hrun. cbn [obj world] in Hrun.
  split_on_answers Hrun.
  all: injection Hrun as <- <- <-.
  all: try match goal with
           | H : waitForStatus _ _ _ _ _ _ _ = _ |- _ =>
               apply waitForStatus_requests in H;
               destruct H as (Hobj & l1 & -> & Hall & _);
               cbn [obj] in Hobj, Hall
           end.
  all: split; [first [reflexivity|assumption]|].
  all: intros xc xo xrp xn xres Hin; cbn [app In] in Hin.
  all: repeat match goal with
         | D : _ \/ _ |- _ => destruct D as [D|D]
         end.
  all: try discriminate; try contradiction.
  all: try (injection Hin as _ _ _ <- _; reflexivity).
  destruct (proj1 (Forall_forall _ _) Hall _ Hin) as (t & res & E & _).
  discriminate E.
Qed.

Lemma MergePR_gets (W : Type) (B : Backend W)
      (s s' : St W) (r : Outcome unit) (l : list Call) :
  MergePR W B s = (r, s', l) ->
  (forall c o rp n res, In (CPRGet c o rp n res) l -> n = pr (obj s))
  /\ (r = Ret tt ->
      exists c o rp n sha,
        In (CPRMerge c o rp n "" "merge" (Ok {| merge_SHA := Some sha |})) l
        /\ mergeSHA (obj s') = sha).
Proof.
  destruct s as [g w]. intro Hrun.
  unfold MergePR in Hrun. go_unfold_in Hrun. cbn [obj world] in Hrun.
  split_on_answers Hrun.
  all: injection Hrun as <- <- <-.
  all: try match goal with
           | H : merge_SHA ?m = _ |- _ =>
               destruct m as [sha]; cbn [merge_SHA] in H; subst sha
           end.
  all: split.
  all: match goal with
       | |- _ = Ret tt -> _ =>
           intro Hr; first [discriminate Hr
                           | eexists _, _, _, _, _; split;
                             [find_in|reflexivity]]
       | |- _ =>
           intros xc xo xrp xn xres Hin; split_membership Hin;
           injection Hin as _ _ _ <- _; reflexivity
       end.
Qed.

Lemma WaitForMergeCommit_requests (W : Type) (B : Backend W)
      (statusContext : string) (s s' : St W) (r : Outcome unit)
      (l : list Call) :
  WaitForMergeCommit W B statusContext s = (r, s', l) ->
  forall ev, In ev l -> isStatusRequest ev = true ->
             exists c o rp t res,
               ev = CListStatuses c o rp (mergeSHA (obj s)) 20%Z t res.
Proof.
  unfold WaitForMergeCommit. go_unfold.
  destruct (waitForStatus W B (mergeSHA (obj s)) (owner (obj s))
                          (repo (obj s)) statusContext s)
    as [[r1 s1] l1] eqn:Hwait.
  intros [= <- <- <-] ev Hin Hreq. cbn [app] in Hin.
  destruct (waitForStatus_requests W B _ _ _ _ _ _ _ _ Hwait)
    as (_ & l2 & -> & Hall & _).
  destruct Hin as [<-|Hin]; [discriminate Hreq|].
  destruct (proj1 (Forall_forall _ _) Hall _ Hin) as (t & res & -> & _).
  eexists _, _, _, _, _. reflexivity.
Qed.

Ltac not_allowed :=
  match goal with
  | H : forallb (allowed _) ?l = true, K : In _ ?l |- _ =>
      let X := fresh in
      pose proof (proj1 (forallb_forall _ _) H _ K) as X; discriminate X
  end.

(** X11.  In a run of [Create], every fetch of a pull request asks for the
    number that the creation request of the same run returned, and every
    status request of the wait on the merge commit asks for the SHA that the
    merge request of the same run returned. *)
Theorem Create_threads_identifiers (W : Type) (B : Backend W)
        (branchName targetBranch prStatusContext masterStatusContext : string)
        (fn : UpdateFunc W) (s s' : St W) (r : Outcome unit)
        (l : list MethodCall) :
  Create W B branchName targetBranch prStatusContext masterStatusContext fn s
  = (r, s', l) ->
  (forall mc c o rp n res,
      In mc l -> In (CPRGet c o rp n res) (calls mc) ->
      exists mc0 c' o' rp' new p,
        In mc0 l /\ method mc0 = MRaisePR
        /\ calls mc0 = [CPRCreate c' o' rp' new (Ok p)]
        /\ pr_Number p = Some n)
  /\ (forall mc ev,
         In mc l -> method mc = MWaitForMergeCommit ->
         In ev (calls mc) -> isStatusRequest ev = true ->
         exists mc1 c o rp n msg meth sha,
           In mc1 l /\ method mc1 = MMergePR
           /\ In (CPRMerge c o rp n msg meth (Ok {| merge_SHA := Some sha |}))
                 (calls mc1)
           /\ exists c' o' rp' t res,
               ev = CListStatuses c' o' rp' sha 20%Z t res).
Proof.
  intro Hrun. create_cases Hrun.
  all: try match goal with
           | H : WaitForMergeCommit _ _ _ _ = _ |- _ =>
               pose proof (WaitForMergeCommit_requests _ _ _ _ _ _ _ H)
           end.
  all: repeat match goal with
         | H : RaisePR _ _ _ _ _ _ _ = (Ret tt, _, _) |- _ =>
             apply RaisePR_success in H;
             destruct H as (? & ? & ? & ? & ? & ? & -> & ? & ?)
         | H : WaitForPR _ _ _ _ = _ |- _ =>
             apply WaitForPR_gets in H; destruct H as (? & ?)
         | H : MergePR _ _ _ = (Ret tt, _, _) |- _ =>
             apply MergePR_gets in H; destruct H as (? & Hmerged);
             destruct (Hmerged eq_refl) as (? & ? & ? & ? & ? & ? & ?);
             clear Hmerged
         | H : MergePR _ _ _ = _ |- _ =>
             apply MergePR_gets in H; destruct H as (? & _)
         end.
  all: learn_allowed W B.
  all: split.
  all: match goal with
       | |- forall mc ev, In _ _ -> method _ = _ -> _ =>
           intros mc ev Hmc Hmeth Hev Hreq; split_membership Hmc;
           subst mc; cbn [method calls] in Hmeth, Hev;
           try discriminate Hmeth
       | |- _ =>
           intros mc c o rp n res Hmc Hget; split_membership Hmc;
           subst mc; cbn [calls] in Hget;
           try not_allowed;
           try (split_membership Hget; fail)
       end.
  all: match goal with
       | |- context [{| method := MMergePR; calls := ?cl; result := ?rr |}] =>
           lazymatch goal with
           | Hreq : isStatusRequest _ = true |- _ =>
               exists {| method := MMergePR; calls := cl; result := rr |}
           end
       | |- context [{| method := MRaisePR; calls := ?cl; result := ?rr |}] =>
           exists {| method := MRaisePR; calls := cl; result := rr |}
       end.
  all: try match goal with
           | Hreq : isStatusRequest _ = true,
             Q : forall ev, In ev ?l5 -> _, K : In _ ?l5 |- _ =>
               destruct (Q _ K Hreq) as (? & ? & ? & ? & ? & ->)
           end.
  all: try match goal with
           | Q : forall c o rp n res, In (CPRGet c o rp n res) ?lg -> _,
             K : In (CPRGet _ _ _ _ _) ?lg |- _ =>
               rewrite (Q _ _ _ _ _ K)
           end.
  all: eexists _, _, _, _, _.
  all: try (eexists _, _).
  all: split; [find_in|]; split; [reflexivity|].
  all: split; [first [reflexivity | cbn [calls]; eassumption]|].
  all: first [ congruence
             | eexists _, _, _, _, _; f_equal; congruence ].
Qed.

(** The theorem on the run in which everything succeeds: the fetch made by
    MergePR asks for pull request 7, the number the creation returned. *)
Lemma Create_threads_identifiers_witness :
  exists mc0 c' o' rp' new p,
    In mc0 (snd (runCreate happy bump))
    /\ method mc0 = MRaisePR
    /\ calls mc0 = [CPRCreate c' o' rp' new (Ok p)]
    /\ pr_Number p = Some 7%Z.
Proof.
  destruct (runCreate happy bump) as [[r s'] l] eqn:Hrun.
  unfold runCreate in Hrun.
  destruct (Create_threads_identifiers nat (scripted happy) _ _ _ _ _ _ _ _ _
              Hrun) as (Hgets & _).
  cbn [snd].
  apply (Hgets {| method := MMergePR;
                  calls := [CPRGet tokenClient "octocat" "Hello-World" 7
                                   (Ok openPR);
                            CPRMerge tokenClient "octocat" "Hello-World" 7
                                     "" "merge" merged];
                  result := Ret tt |}
               tokenClient "octocat" "Hello-World" 7%Z (Ok openPR)).
  - vm_compute in Hrun. injection Hrun as _ _ <-.
    do 4 right. left. reflexivity.
  - left. reflexivity.
Defined.

(** ** The teardown's result *)

(** Case analysis of the goal on every answer it depends on. *)
Ltac split_goal_on_answers :=
  repeat (match goal with
          | |- context [match ?x with _ => _ end] =>
              lazymatch x with
              | context [match _ with _ => _ end] => fail
              | _ => destruct x eqn:?
              end
          end).

(** X14.  What [Create] returns does not depend on what the removal of the
    temporary directory returns: with any other [os.RemoveAll] in place of
    the backend's, the run returns the same. *)
Theorem Create_ignores_teardown_result (W : Type) (B : Backend W)
        (f : string -> W -> option error * W)
        (branchName targetBranch prStatusContext masterStatusContext : string)
        (fn : UpdateFunc W) (s : St W) :
  fst (fst (Create W (withRemoveAll B f) branchName targetBranch
                   prStatusContext masterStatusContext fn s))
  = fst (fst (Create W B branchName targetBranch prStatusContext
                     masterStatusContext fn s)).
Proof.
  unfold Create. go_unfold.
  change (Clone W (withRemoveAll B f)) with (Clone W B).
  change (PushCommit W (withRemoveAll B f)) with (PushCommit W B).
  change (RaisePR W (withRemoveAll B f)) with (RaisePR W B).
  change (WaitForPR W (withRemoveAll B f)) with (WaitForPR W B).
  change (MergePR W (withRemoveAll B f)) with (MergePR W B).
  change (WaitForMergeCommit W (withRemoveAll B f))
    with (WaitForMergeCommit W B).
  split_goal_on_answers.
  all: subst; cbn [fst].
  all: try reflexivity.
  all: repeat match goal with
         | H : Close _ _ _ = (Panicked, _, _) |- _ =>
             destruct (Close_calls _ _ _ _ _ _ H) as (? & _ & Hne);
             contradiction Hne; reflexivity
         end.
Qed.

(** ** The object after a successful run *)

Lemma quiet_no_merge_calls (l : list Call) :
  forallb quiet l = true -> filter isMergeCall l = [].
Proof.
  induction l as [|ev l IH]; [reflexivity|].
  cbn [forallb filter]. intro H. apply andb_true_iff in H as [Hev Hl].
  rewrite (IH Hl). destruct ev; try reflexivity; discriminate Hev.
Qed.

Lemma MergePR_merge_calls (W : Type) (B : Backend W)
      (s s' : St W) (l : list Call) :
  MergePR W B s = (Ret tt, s', l) -> length (filter isMergeCall l) = 1.
Proof.
  destruct s as [g w]. intro Hrun.
  unfold MergePR in Hrun. go_unfold_in Hrun. cbn [obj world] in Hrun.
  split_on_answers Hrun.
  all: try discriminate Hrun.
  injection Hrun as <- <-. reflexivity.
Qed.

Lemma MergePR_pr (W : Type) (B : Backend W)
      (s s' : St W) (r : Outcome unit) (l : list Call) :
  MergePR W B s = (r, s', l) -> pr (obj s') = pr (obj s).
Proof.
  destruct s as [g w]. intro Hrun.
  unfold MergePR in Hrun. go_unfold_in Hrun. cbn [obj world] in Hrun.
  split_on_answers Hrun.
  all: injection Hrun as <- <- <-; reflexivity.
Qed.

Lemma WaitForMergeCommit_obj (W : Type) (B : Backend W)
      (statusContext : string) (s s' : St W) (r : Outcome unit)
      (l : list Call) :
  WaitForMergeCommit W B statusContext s = (r, s', l) -> obj s' = obj s.
Proof.
  unfold WaitForMergeCommit. go_unfold.
  destruct (waitForStatus W B (mergeSHA (obj s)) (owner (obj s))
                          (repo (obj s)) statusContext s)
    as [[r1 s1] l1] eqn:Hwait.
  intros [= <- <- <-].
  exact (proj1 (waitForStatus_requests W B _ _ _ _ _ _ _ _ Hwait)).
Qed.

Lemma Close_obj (W : Type) (B : Backend W)
      (s s' : St W) (r : Outcome unit) (l : list Call) :
  Close W B s = (r, s', l) -> obj s' = obj s.
Proof.
  destruct s as [g w]. intro Hrun.
  unfold Close in Hrun. go_unfold_in Hrun. cbn [obj world] in Hrun.
  split_on_answers Hrun.
  all: injection Hrun as <- <- <-; reflexivity.
Qed.

(** X15.  When [Create] returns [nil], the object holds in [pr] the number
    of the pull request that the run created and in [mergeSHA] the SHA that
    the run's merge request returned, and the run made exactly one creation
    and one merge request. *)
Theorem Create_success_state (W : Type) (B : Backend W)
        (branchName targetBranch prStatusContext masterStatusContext : string)
        (fn : UpdateFunc W) (s s' : St W) (r : Outcome unit)
        (l : list MethodCall) :
  Create W B branchName targetBranch prStatusContext masterStatusContext fn s
  = (r, s', l) ->
  r = Ret tt ->
  map method l = createOrder ++ [MClose]
  /\ exists c o rp new p c' o' rp' n sha,
      In {| method := MRaisePR; calls := [CPRCreate c o rp new (Ok p)];
            result := Ret tt |} l
      /\ pr_Number p = Some (pr (obj s'))
      /\ In (CPRMerge c' o' rp' n "" "merge" (Ok {| merge_SHA := Some sha |}))
            (flatten l)
      /\ mergeSHA (obj s') = sha
      /\ length (filter isMergeCall (flatten l)) = 1.
Proof.
  intro Hrun. create_cases Hrun.
  all: intro Hr; try discriminate Hr.
  all: repeat match goal with
         | H : RaisePR _ _ _ _ _ _ _ = (Ret tt, _, _) |- _ =>
             apply RaisePR_success in H;
             destruct H as (? & ? & ? & ? & ? & ? & -> & ? & ?)
         | H : WaitForPR _ _ _ _ = _ |- _ =>
             pose proof (WaitForPR_keeps _ _ _ _ _ _ _ H) as (_ & _ & ?);
             apply WaitForPR_gets in H; destruct H as (? & _)
         | H : MergePR _ _ _ = (Ret tt, _, _) |- _ =>
             pose proof (MergePR_pr _ _ _ _ _ _ H);
             pose proof (MergePR_merge_calls _ _ _ _ _ H);
             apply MergePR_gets in H; destruct H as (_ & Hmerged);
             destruct (Hmerged eq_refl) as (? & ? & ? & ? & ? & ? & ?);
             clear Hmerged
         | H : WaitForMergeCommit _ _ _ _ = _ |- _ =>
             pose proof (WaitForMergeCommit_keeps _ _ _ _ _ _ _ H)
               as (_ & _ & ?);
             apply WaitForMergeCommit_obj in H
         | H : Close _ _ _ = _ |- _ =>
             pose proof (Close_keeps _ _ _ _ _ _ H) as (_ & _ & ?);
             apply Close_obj in H
         | H : Clone _ _ _ = _ |- _ =>
             apply Clone_keeps in H; destruct H as (_ & _ & H)
         | H : PushCommit _ _ _ _ _ = _ |- _ =>
             apply PushCommit_keeps in H; destruct H as (_ & _ & H)
         end.
  all: split; [reflexivity|].
  all: eexists _, _, _, _, _, _, _, _, _, _.
  all: split; [find_in|].
  all: split; [congruence|].
  all: unfold flatten; cbn [map concat calls app].
  all: split;
    [apply in_or_app; right; apply in_or_app; right; right;
     apply in_or_app; right; apply in_or_app; left; eassumption|].
  all: split; [congruence|].
  all: rewrite !filter_app; cbn [filter isMergeCall];
    rewrite ?filter_app, ?length_app.
  all: repeat match goal with
         | Q : forallb quiet ?x = true |- _ =>
             rewrite (quiet_no_merge_calls x Q); clear Q
         end.
  all: cbn [length filter]; lia.
Qed.

(** The theorem on the run in which everything succeeds. *)
Lemma Create_success_state_witness :
  map method (snd (runCreate happy bump)) = createOrder ++ [MClose]
  /\ exists p, pr_Number p = Some (pr (obj (snd (fst (runCreate happy bump))))).
Proof.
  destruct (runCreate happy bump) as [[r s'] l] eqn:Hrun.
  assert (Hr : r = Ret tt).
  { vm_compute in Hrun. injection Hrun as <- _ _. reflexivity. }
  unfold runCreate in Hrun.
  destruct (Create_success_state nat (scripted happy) _ _ _ _ _ _ _ _ _
              Hrun Hr)
    as (Hord & c & o & rp & new & p & _ & _ & _ & _ & _ & _ & Hnum & _).
  cbn [fst snd]. split; [exact Hord|]. exists p. exact Hnum.
Defined.
